(** * Word-frequency analysis by map/reduce: a shallow embedding

    The development follows [mapreduce_word_analysis.py].  The class
    [MapReduceWordAnalyzer] becomes a record, its methods become functions
    over that record, Python's [str] is a list of code points, [int] is [Z],
    and a [dict] is the list of its items in insertion order.  A method
    that does not read [self] takes no analyzer.  Calls that can raise
    return a [result]; the orchestrating method additionally threads the
    lines it sends to the logger. *)

From Stdlib Require Import String Ascii List ZArith NArith Bool Lia.
From Stdlib Require Import Permutation Sorted.
Import ListNotations.

Local Open Scope Z_scope.

(** ** Python values *)

(** A character is a Unicode code point, a string is a sequence of them. *)
Definition char := N.
Definition str := list char.

Definition str_eq_dec : forall a b : str, {a = b} + {a <> b} :=
  list_eq_dec N.eq_dec.

(** String literals of the source, read as code points. *)
Fixpoint py (s : string) : str :=
  match s with
  | EmptyString => []
  | String a s' => N_of_ascii a :: py s'
  end.

(** Exceptions that the modelled code can raise. *)
Inductive exn :=
| ZeroDivisionError
| ValueError.

Inductive result (A : Type) :=
| Ok (a : A)
| Raise (e : exn).
Arguments Ok {A} a.
Arguments Raise {A} e.

Module Py.

Definition SP : char := 32%N.
Definition LT : char := 60%N.
Definition GT : char := 62%N.

(** [str.isspace] on one code point.  The same predicate drives [\s] in
    [re], [str.split()] and [str.strip()]. *)
Definition whitespace : list char :=
  [9; 10; 11; 12; 13; 28; 29; 30; 31; 32; 133; 160; 5760;
   8192; 8193; 8194; 8195; 8196; 8197; 8198; 8199; 8200; 8201; 8202;
   8232; 8233; 8239; 8287; 12288]%N.

Definition isspace (c : char) : bool := existsb (N.eqb c) whitespace.

(** The class [a-z]. *)
Definition is_az (c : char) : bool := ((97 <=? c) && (c <=? 122))%N.

(** [str.lower] on one code point.  ASCII capitals, U+0130 and U+212A are
    the code points whose lower-case form contains an ASCII letter.  Every
    other cased code point maps to code points outside ASCII that are not
    white space; the Unicode table is not reproduced and such a code point
    stands for its own lower-case form. *)
Definition lower_char (c : char) : str :=
  (if (65 <=? c) && (c <=? 90) then [c + 32]
   else if c =? 304 then [105; 775]
   else if c =? 8490 then [107]
   else [c])%N.

Definition lower (s : str) : str := flat_map lower_char s.

(** [s.lstrip()], [s.rstrip()], [s.strip()]. *)
Fixpoint lstrip (s : str) : str :=
  match s with
  | [] => []
  | c :: s' => if isspace c then lstrip s' else s
  end.

Definition rstrip (s : str) : str := rev (lstrip (rev s)).

Definition strip (s : str) : str := rstrip (lstrip s).

(** [s.split()]: maximal runs of non-space code points, left to right.
    [cur] holds the word being read, last code point first. *)
Definition flush (cur : str) (ws : list str) : list str :=
  match cur with
  | [] => ws
  | _ :: _ => rev cur :: ws
  end.

Fixpoint split_from (cur : str) (s : str) : list str :=
  match s with
  | [] => flush cur []
  | c :: s' =>
      if isspace c then flush cur (split_from [] s')
      else split_from (c :: cur) s'
  end.

Definition split (s : str) : list str := split_from [] s.

(** [sep.join(l)]. *)
Fixpoint join (sep : str) (l : list str) : str :=
  match l with
  | [] => []
  | [w] => w
  | w :: l' => w ++ sep ++ join sep l'
  end.

(** [len(l)] as a Python integer. *)
Definition len {A} (l : list A) : Z := Z.of_nat (length l).

(** [l[start:stop]]: a negative index counts from the end, and both are
    clamped to the list. *)
Definition clamp (n i : Z) : Z :=
  if i <? 0 then Z.max 0 (i + n) else Z.min i n.

Definition slice {A} (l : list A) (start stop : Z) : list A :=
  let s := clamp (len l) start in
  let e := clamp (len l) stop in
  firstn (Z.to_nat (e - s)) (skipn (Z.to_nat s) l).

(** [range(n)]. *)
Definition range (n : Z) : list Z := map Z.of_nat (seq 0 (Z.to_nat n)).

(** [a // b]. *)
Definition floordiv (a b : Z) : result Z :=
  if b =? 0 then Raise ZeroDivisionError else Ok (a / b).

(** *** The three substitutions of [preprocess_text] *)

(** One attempt to match [<[^>]+>] at the head of [s]; on success the text
    after the match.  [[^>]+] is greedy and stops at the first [>] or at
    the end of the text, and giving code points back cannot help, since
    the code point after a shorter body is not [>]. *)
Fixpoint tag_body (seen : bool) (s : str) : option str :=
  match s with
  | [] => None
  | c :: s' =>
      if (c =? GT)%N then (if seen then Some s' else None)
      else tag_body true s'
  end.

Definition match_tag (s : str) : option str :=
  match s with
  | [] => None
  | c :: s' => if (c =? LT)%N then tag_body false s' else None
  end.

(** [re.sub(r'<[^>]+>', '', s)]: matches are looked for left to right and
    do not overlap.  The fuel bounds the number of scanning steps. *)
Fixpoint sub_tags (fuel : nat) (s : str) : str :=
  match fuel with
  | O => s
  | S fuel' =>
      match s with
      | [] => []
      | c :: s' =>
          match match_tag s with
          | Some rest => sub_tags fuel' rest
          | None => c :: sub_tags fuel' s'
          end
      end
  end.

Definition re_sub_tags (s : str) : str := sub_tags (length s) s.

(** [re.sub(r'\s+', ' ', s)]: [in_run] tells that the previous code point
    was white space, so the run has been replaced already. *)
Fixpoint sub_spaces (in_run : bool) (s : str) : str :=
  match s with
  | [] => []
  | c :: s' =>
      if isspace c
      then (if in_run then sub_spaces true s' else SP :: sub_spaces true s')
      else c :: sub_spaces false s'
  end.

Definition re_sub_spaces (s : str) : str := sub_spaces false s.

(** [re.sub(r'[^a-z\s]', '', s)]. *)
Definition re_sub_nonletters (s : str) : str :=
  filter (fun c => is_az c || isspace c) s.

End Py.

(** ** The analyzer *)

Record MapReduceWordAnalyzer := {
  num_workers : Z;
  stop_words : list str
}.

Definition default_stop_words : list str :=
  map py
    ["the"; "a"; "an"; "and"; "or"; "but"; "in"; "on"; "at"; "to"; "for"; "of"; "with"; "by";
     "from"; "up"; "about"; "into"; "through"; "during"; "before"; "after"; "above"; "below";
     "as"; "is"; "was"; "are"; "were"; "be"; "been"; "being"; "have"; "has"; "had"; "do"; "does";
     "did"; "will"; "would"; "could"; "should"; "may"; "might"; "must"; "can"; "shall"; "this";
     "that"; "these"; "those"; "i"; "you"; "he"; "she"; "it"; "we"; "they"; "them"; "their";
     "what"; "which"; "who"; "when"; "where"; "why"; "how"; "all"; "any"; "both"; "each";
     "few"; "more"; "most"; "other"; "some"; "such"; "no"; "nor"; "not"; "only"; "own"; "same";
     "so"; "than"; "too"; "very"; "s"; "t"; "just"; "don"; "now"; "if"; "then"; "once"]%string.

(** [__init__]: the worker count is stored as given. *)
Definition __init__ (num_workers : Z) : MapReduceWordAnalyzer :=
  {| num_workers := num_workers; stop_words := default_stop_words |}.

(** [preprocess_text]: the value returned. *)
Definition preprocess_text (text : str) : str :=
  let text := Py.re_sub_tags text in
  let text := Py.lower text in
  let text := Py.re_sub_spaces text in
  let text := Py.re_sub_nonletters text in
  Py.strip text.

(** A [dict] with [str] keys and [int] values: its items in insertion
    order.  Keys are unique ([dict_wf]). *)
Definition dict := list (str * Z).

Definition dict_wf (d : dict) : Prop := NoDup (map fst d).

(** [d.get(k)]. *)
Fixpoint dict_get (k : str) (d : dict) : option Z :=
  match d with
  | [] => None
  | (k', v) :: d' => if str_eq_dec k' k then Some v else dict_get k d'
  end.

(** [d1 == d2] on dicts: the same keys with the same values, whatever the
    insertion order. *)
Definition dict_equal (d1 d2 : dict) : Prop :=
  forall k, dict_get k d1 = dict_get k d2.

(** [word_count[word] += count] on a [defaultdict(int)]: a missing key
    starts from 0 and is inserted last. *)
Fixpoint dict_add (d : dict) (word : str) (count : Z) : dict :=
  match d with
  | [] => [(word, 0 + count)]
  | (k, v) :: d' =>
      if str_eq_dec k word then (k, v + count) :: d'
      else (k, v) :: dict_add d' word count
  end.

(** [word in self.stop_words]. *)
Definition in_set (word : str) (s : list str) : bool :=
  if in_dec str_eq_dec word s then true else false.

(** [map_function]: the loop appends one pair per retained word. *)
Definition map_function (self : MapReduceWordAnalyzer) (text_chunk : str)
  : list (str * Z) :=
  let words := Py.split text_chunk in
  flat_map
    (fun word =>
       let word := Py.strip word in
       if (2 <? Py.len word) && negb (in_set word (stop_words self))
       then [(word, 1)]
       else [])
    words.

(** [reduce_function]: the two nested loops over the mapped data. *)
Definition reduce_function (mapped_data : list (list (str * Z))) : dict :=
  fold_left
    (fun word_count word_list =>
       fold_left
         (fun word_count '(word, count) => dict_add word_count word count)
         word_list word_count)
    mapped_data [].

(** [split_text_into_chunks]: the division raises when [num_chunks] is 0;
    the loop appends one chunk per index of [range(num_chunks)]. *)
Definition split_text_into_chunks (text : str) (num_chunks : Z)
  : result (list str) :=
  let words := Py.split text in
  match Py.floordiv (Py.len words) num_chunks with
  | Raise e => Raise e
  | Ok chunk_size =>
      Ok (map
            (fun i =>
               let start := i * chunk_size in
               let end_ :=
                 if i =? num_chunks - 1 then Py.len words
                 else (i + 1) * chunk_size in
               Py.join [Py.SP] (Py.slice words start end_))
            (Py.range num_chunks))
  end.

(** *** [sorted] and [Counter.most_common] *)

(** [sorted(items, key=itemgetter(1), reverse=True)].  Python's sort is
    stable, also with [reverse=True]: items of equal count keep their
    order.  A stable sort is determined by that, and is written here as an
    insertion sort. *)
Fixpoint insert_desc (x : str * Z) (l : list (str * Z)) : list (str * Z) :=
  match l with
  | [] => [x]
  | y :: l' => if snd x <? snd y then y :: insert_desc x l' else x :: l
  end.

Fixpoint sorted_desc (l : list (str * Z)) : list (str * Z) :=
  match l with
  | [] => []
  | x :: l' => insert_desc x (sorted_desc l')
  end.

(** [Counter(d).most_common(n)], that is [heapq.nlargest(n, d.items(),
    key=itemgetter(1))]: the first [n] items of the sorted list, and no item
    when [n] is negative ([nlargest] then zips the items with an empty
    range). *)
Definition most_common (d : dict) (n : Z) : list (str * Z) :=
  if n <? 0 then [] else firstn (Z.to_nat n) (sorted_desc d).

(** [get_top_words]: the value returned. *)
Definition get_top_words (word_frequencies : dict) (top_n : Z)
  : list (str * Z) :=
  let counter := word_frequencies in
  most_common counter top_n.

(** *** Logging and failure *)

(** The lines sent to [logger.info], in the order of the source. *)
Inductive log_line :=
| LogPreprocessing
| LogTextCleaned
| LogMapReduceStart
| LogTextSplit (parts : Z)
| LogMapPhase
| LogMapPhaseDone (parts : Z)
| LogReducePhase
| LogAnalysisDone (unique_words : Z)
| LogTopHeader (top_n : Z)
| LogTopWord (i : Z) (word : str) (count : Z).

(** A computation writes log lines and then returns or raises; nothing
    runs after a raise. *)
Definition M (A : Type) : Type := list log_line * result A.

Definition ret {A} (a : A) : M A := ([], Ok a).

Definition bind {A B} (m : M A) (f : A -> M B) : M B :=
  match m with
  | (l, Ok a) => let '(l', r) := f a in (l ++ l', r)
  | (l, Raise e) => (l, Raise e)
  end.

Definition tell (lines : list log_line) : M unit := (lines, Ok tt).

Definition info (line : log_line) : M unit := tell [line].

Definition lift {A} (r : result A) : M A := ([], r).

Notation "x <- m ;; k" := (bind m (fun x => k))
  (at level 61, m at next level, right associativity).
Notation "m ;; k" := (bind m (fun _ => k))
  (at level 61, right associativity).

(** [preprocess_text] with its two log lines. *)
Definition preprocess_text_logged (text : str) : M str :=
  info LogPreprocessing ;;
  let text := preprocess_text text in
  info LogTextCleaned ;;
  ret text.

(** [ThreadPoolExecutor(max_workers=n)] followed by
    [list(executor.map(f, items))]: the constructor raises [ValueError]
    unless [n] is positive; the results come back in the order of [items],
    each the value of the pure function [f]. *)
Definition executor_map {A B} (max_workers : Z) (f : A -> B) (items : list A)
  : M (list B) :=
  if max_workers <=? 0 then lift (Raise ValueError)
  else ret (map f items).

(** [mapreduce_word_count]. *)
Definition mapreduce_word_count (self : MapReduceWordAnalyzer) (text : str)
  : M dict :=
  info LogMapReduceStart ;;
  text <- preprocess_text_logged text ;;
  text_chunks <- lift (split_text_into_chunks text (num_workers self)) ;;
  info (LogTextSplit (Py.len text_chunks)) ;;
  info LogMapPhase ;;
  mapped_results <-
    executor_map (num_workers self) (map_function self) text_chunks ;;
  info (LogMapPhaseDone (Py.len mapped_results)) ;;
  info LogReducePhase ;;
  let word_frequencies := reduce_function mapped_results in
  info (LogAnalysisDone (Py.len word_frequencies)) ;;
  ret word_frequencies.

(** [get_top_words] with its log lines: the header, then one line per
    returned word, numbered from 1. *)
Definition get_top_words_logged (word_frequencies : dict) (top_n : Z)
  : M (list (str * Z)) :=
  let top_words := get_top_words word_frequencies top_n in
  info (LogTopHeader top_n) ;;
  tell (map (fun '(i, (word, count)) => LogTopWord i word count)
            (combine (map (fun i => Z.of_nat (S i))
                          (seq 0 (length top_words)))
                     top_words)) ;;
  ret top_words.

(** ** Vocabulary of the statements *)

(** A word as [split] produces it: not empty, no white space inside. *)
Definition spacefree (w : str) : Prop :=
  Forall (fun c => Py.isspace c = false) w.

Definition is_word (w : str) : Prop := w <> [] /\ spacefree w.

(** The test that [map_function] applies to a token. *)
Definition retained (self : MapReduceWordAnalyzer) (token : str) : bool :=
  (2 <? Py.len token) && negb (in_set token (stop_words self)).

(** The counts that the mapped pairs carry for the word [k], and their
    sum. *)
Definition counts_of (k : str) (pairs : list (str * Z)) : list Z :=
  map snd
      (filter (fun p => if str_eq_dec (fst p) k then true else false) pairs).

Definition sum (l : list Z) : Z := fold_right Z.add 0 l.

(** What the table holds for [k] once the pairs with counts [cs] have been
    added to a table that held [old]. *)
Definition accumulate (old : option Z) (cs : list Z) : option Z :=
  match cs, old with
  | [], _ => old
  | _ :: _, Some v => Some (v + sum cs)
  | _ :: _, None => Some (0 + sum cs)
  end.

Definition add_pairs (d : dict) (pairs : list (str * Z)) : dict :=
  fold_left (fun word_count '(word, count) => dict_add word_count word count)
            pairs d.

(** [p] comes no later than [q] in an order of non-increasing count. *)
Definition count_ge (p q : str * Z) : Prop := snd q <= snd p.

(** The code points that a normalized text may hold. *)
Definition letter_or_space (c : char) : Prop :=
  Py.is_az c = true \/ c = Py.SP.

(** The elements of [l] that are not in [seen], each at its first
    occurrence only. *)
Fixpoint first_occurrences (seen l : list str) : list str :=
  match l with
  | [] => []
  | x :: l' =>
      if in_dec str_eq_dec x seen then first_occurrences seen l'
      else x :: first_occurrences (seen ++ [x]) l'
  end.

(** What a key holds after two tables have been merged by addition. *)
Definition merge_counts (a b : option Z) : option Z :=
  match a, b with
  | Some x, Some y => Some (x + y)
  | Some x, None => Some x
  | None, _ => b
  end.

(** ** The command line program *)

(** What [main] and the methods it calls raise: the exceptions of the
    pipeline, the [IndexError] of an index into an empty list, and the
    exceptions that come out of [requests] and [matplotlib]. *)
Inductive raised :=
| Raised (e : exn)
| RaisedIndexError
| RaisedByLibrary.

(** What [main] and the methods it calls print, log, write and draw.  A
    line is kept with the values it interpolates, not with its text; the
    listing of the sample URLs, the message and help text for a missing
    URL, and the three heading lines of the summary are one entry each. *)
Inductive output :=
| PrintSampleUrls
| PrintUrlRequired
| LogStart
| LogUrl (link : str)
| LogWorkers (workers : Z)
| LogTopWords (top_words : Z)
| LogFetching
| LogFetched (characters : Z)
| LogFetchFailed
| LogEmptyText
| Pipeline (line : log_line)
| LogNoWords
| LogSaving
| WriteReport (unique_words total_words : Z)
              (entries : list (Z * (str * Z)))
| LogSaved
| LogSaveFailed
| LogVisualizing
| WarnNothingToPlot
| ShowChart (top_words : list (str * Z)) (top_n : Z)
| LogVisualized
| PrintSummaryHead
| PrintUrl (link : str)
| PrintTotal (total_words : Z)
| PrintUnique (unique_words : Z)
| PrintAverage (total_words unique_words : Z)
| PrintMostFrequent (word : str) (count : Z)
| LogSuccess
| LogFailure (e : raised).

(** A step of the program: its output, then a value or an exception. *)
Definition IO (A : Type) : Type := list output * (A + raised).

Definition io_ret {A} (a : A) : IO A := ([], inl a).

Definition io_bind {A B} (m : IO A) (f : A -> IO B) : IO B :=
  match m with
  | (out, inl a) => let '(out', r) := f a in (out ++ out', r)
  | (out, inr e) => (out, inr e)
  end.

Definition say (o : output) : IO unit := ([o], inl tt).

Definition throw {A} (e : raised) : IO A := ([], inr e).

(** A call into the pipeline: its log lines and its result. *)
Definition from_pipeline {A} (m : M A) : IO A :=
  (map Pipeline (fst m),
   match snd m with
   | Ok a => inl a
   | Raise e => inr (Raised e)
   end).

(** [try: body except Exception as e: handler(e)].  An interrupt from the
    keyboard, which can arrive at any point, is not part of the model. *)
Definition try_except (body : IO unit) (handler : raised -> IO unit)
  : IO unit :=
  match body with
  | (out, inl tt) => (out, inl tt)
  | (out, inr e) => let '(out', r) := handler e in (out ++ out', r)
  end.

Declare Scope io_scope.
Delimit Scope io_scope with io.
Notation "x <- m ;; k" := (io_bind m (fun x => k))
  (at level 61, m at next level, right associativity) : io_scope.
Notation "m ;; k" := (io_bind m (fun _ => k))
  (at level 61, right associativity) : io_scope.

(** The parsed arguments of [main]. *)
Record Namespace := {
  url : option str;
  sample_urls : bool;
  top_words : Z;
  workers : Z;
  save_results : bool;
  no_visualization : bool
}.

(** [l[0]]. *)
Definition first_item {A} (l : list A) : IO A :=
  match l with
  | [] => throw RaisedIndexError
  | x :: _ => io_ret x
  end.

(** [a / b] on integers, of which only the operands are kept. *)
Definition true_divide (a b : Z) : IO (Z * Z) :=
  if b =? 0 then throw (Raised ZeroDivisionError) else io_ret (a, b).

(** [enumerate(l, 1)]. *)
Definition enumerate1 {A} (l : list A) : list (Z * A) :=
  combine (map (fun i => Z.of_nat (S i)) (seq 0 (length l))) l.

Section OutsideWorld.

(** The body of the response to a GET request, or [None] when [requests]
    raises (no answer, or an error status). *)
Variable http_get : str -> option str.

(** Whether the report file can be opened for writing; a file that opens
    takes all the writes. *)
Variable file_opens : bool.

(** Whether [matplotlib] draws the chart without raising. *)
Variable chart_renders : bool.

(** [fetch_text_from_url]: an exception is logged and raised again. *)
Definition fetch_text_from_url (link : str) : IO str :=
  (say LogFetching ;;
   match http_get link with
   | Some text => say (LogFetched (Py.len text)) ;; io_ret text
   | None => say LogFetchFailed ;; throw RaisedByLibrary
   end)%io.

(** [save_results_to_file]: the exceptions of the file system are logged
    and not raised again. *)
Definition save_results_to_file (word_frequencies : dict) : IO unit :=
  (say LogSaving ;;
   let sorted_words := sorted_desc word_frequencies in
   if file_opens
   then say (WriteReport (Py.len word_frequencies)
                         (fold_right Z.add 0 (map snd word_frequencies))
                         (enumerate1 sorted_words)) ;;
        say LogSaved
   else say LogSaveFailed)%io.

(** [visualize_top_words]: nothing is drawn for an empty list. *)
Definition visualize_top_words (top : list (str * Z)) (top_n : Z)
  : IO unit :=
  (say LogVisualizing ;;
   match top with
   | [] => say WarnNothingToPlot
   | _ :: _ =>
       if chart_renders
       then say (ShowChart top top_n) ;; say LogVisualized
       else throw RaisedByLibrary
   end)%io.

(** The [try] block of [main]. *)
Definition main_try (args : Namespace) (link : str) : IO unit :=
  (say LogStart ;;
   say (LogUrl link) ;;
   say (LogWorkers (workers args)) ;;
   say (LogTopWords (top_words args)) ;;
   let analyzer := __init__ (workers args) in
   text <- fetch_text_from_url link ;;
   match Py.strip text with
   | [] => say LogEmptyText
   | _ :: _ =>
       word_frequencies <- from_pipeline (mapreduce_word_count analyzer text) ;;
       match word_frequencies with
       | [] => say LogNoWords
       | _ :: _ =>
           top <- from_pipeline
                    (get_top_words_logged word_frequencies (top_words args)) ;;
           (if save_results args
            then save_results_to_file word_frequencies
            else io_ret tt) ;;
           (if no_visualization args
            then io_ret tt
            else visualize_top_words top (top_words args)) ;;
           let total_words := fold_right Z.add 0 (map snd word_frequencies) in
           let unique_words := Py.len word_frequencies in
           say PrintSummaryHead ;;
           say (PrintUrl link) ;;
           say (PrintTotal total_words) ;;
           say (PrintUnique unique_words) ;;
           average <- true_divide total_words unique_words ;;
           say (PrintAverage (fst average) (snd average)) ;;
           most <- first_item top ;;
           say (PrintMostFrequent (fst most) (snd most)) ;;
           say LogSuccess
       end
   end)%io.

(** [main], from the parsed arguments on. *)
Definition main (args : Namespace) : IO unit :=
  if sample_urls args then say PrintSampleUrls
  else
    match url args with
    | None | Some [] => say PrintUrlRequired
    | Some (c :: link) =>
        try_except (main_try args (c :: link))
                   (fun e => say (LogFailure e))
    end.

End OutsideWorld.

(** ** Runs on concrete inputs *)

Example preprocess_scenario :
  preprocess_text (py "The quick quick fox. The FOX jumps.")
  = py "the quick quick fox the fox jumps".
Proof. reflexivity. Qed.

Example preprocess_markup :
  preprocess_text (py "<p>Hello,  <b>World</b>!</p> 2 < 3 <> x")
  = py "hello world  x".
Proof. reflexivity. Qed.

Example preprocess_angle :
  preprocess_text (py "x < 3 and y > 2 <<a> <>b> q") = py "x  b q".
Proof. reflexivity. Qed.

Example chunks_scenario :
  split_text_into_chunks (py "the quick quick fox the fox jumps") 2
  = Ok [py "the quick quick"; py "fox the fox jumps"].
Proof. reflexivity. Qed.

Example chunks_more_workers_than_words :
  split_text_into_chunks (py "alpha beta gamma") 4
  = Ok [[]; []; []; py "alpha beta gamma"].
Proof. reflexivity. Qed.

Example mapreduce_scenario :
  snd (mapreduce_word_count (__init__ 2)
         (py "The quick quick fox. The FOX jumps."))
  = Ok [(py "quick", 2); (py "fox", 2); (py "jumps", 1)].
Proof. reflexivity. Qed.

Example mapreduce_empty_string :
  snd (mapreduce_word_count (__init__ 4) (py "")) = Ok []
  /\ get_top_words [] 10 = [].
Proof. split; reflexivity. Qed.

Example mapreduce_more_workers_than_words :
  snd (mapreduce_word_count (__init__ 10) (py "alpha beta alpha"))
  = Ok [(py "alpha", 2); (py "beta", 1)].
Proof. reflexivity. Qed.

Example top_scenario :
  get_top_words [(py "quick", 2); (py "fox", 2); (py "jumps", 1)] 2
  = [(py "quick", 2); (py "fox", 2)].
Proof. reflexivity. Qed.

Example top_ties_keep_insertion_order :
  get_top_words [(py "a", 1); (py "b", 2); (py "c", 2); (py "d", 3)] 3
  = [(py "d", 3); (py "b", 2); (py "c", 2)].
Proof. reflexivity. Qed.

(** ** Words and white space *)

Lemma spacefree_rev w : spacefree w -> spacefree (rev w).
Proof.
  unfold spacefree. intros H. apply Forall_forall. intros c Hc.
  rewrite Forall_forall in H. apply H. now apply in_rev.
Qed.

Lemma lstrip_spacefree w : spacefree w -> Py.lstrip w = w.
Proof.
  intros H. destruct H as [|c w Hc Hw]; simpl; [reflexivity|].
  now rewrite Hc.
Qed.

Lemma strip_spacefree w : spacefree w -> Py.strip w = w.
Proof.
  intros H. unfold Py.strip, Py.rstrip.
  rewrite (lstrip_spacefree w H).
  rewrite (lstrip_spacefree (rev w) (spacefree_rev w H)).
  apply rev_involutive.
Qed.

Lemma split_from_word w : forall cur s,
  spacefree w ->
  Py.split_from cur (w ++ s) = Py.split_from (rev w ++ cur) s.
Proof.
  induction w as [|c w IH]; intros cur s H; simpl; [reflexivity|].
  inversion H as [|? ? Hc Hw]; subst.
  rewrite Hc, IH by assumption.
  now rewrite <- app_assoc.
Qed.

Lemma flush_word w ws : w <> [] -> Py.flush (rev w) ws = w :: ws.
Proof.
  intros Hw. unfold Py.flush.
  destruct (rev w) as [|c r] eqn:E.
  - apply (f_equal (@rev char)) in E. rewrite rev_involutive in E.
    now subst.
  - now rewrite <- E, rev_involutive.
Qed.

Lemma split_from_words s : forall cur,
  spacefree cur -> Forall is_word (Py.split_from cur s).
Proof.
  assert (Hflush : forall cur ws,
             spacefree cur -> Forall is_word ws ->
             Forall is_word (Py.flush cur ws)).
  { intros [|c cur] ws Hc Hws; simpl; [assumption|].
    constructor; [|assumption]. split.
    - intros E. apply (f_equal (@length char)) in E.
      rewrite length_app in E. simpl in E. lia.
    - apply (spacefree_rev (c :: cur) Hc). }
  induction s as [|c s IH]; intros cur Hcur; simpl.
  - now apply Hflush.
  - destruct (Py.isspace c) eqn:Hc.
    + apply Hflush; [assumption|]. apply IH. constructor.
    + apply IH. now constructor.
Qed.

Lemma split_words s : Forall is_word (Py.split s).
Proof. apply split_from_words. constructor. Qed.

(** Splitting what [join] put together gives the words back. *)
Lemma split_join ws :
  Forall is_word ws -> Py.split (Py.join [Py.SP] ws) = ws.
Proof.
  unfold Py.split.
  induction 1 as [|w ws [Hne Hsf] Hws IH]; [reflexivity|].
  destruct ws as [|w2 ws].
  - simpl. rewrite <- (app_nil_r w) at 1.
    rewrite split_from_word by assumption. simpl.
    rewrite app_nil_r. now apply flush_word.
  - change (Py.join [Py.SP] (w :: w2 :: ws))
      with (w ++ Py.SP :: Py.join [Py.SP] (w2 :: ws)).
    remember (Py.join [Py.SP] (w2 :: ws)) as rest.
    rewrite split_from_word by assumption.
    cbn [Py.split_from]. change (Py.isspace Py.SP) with true. cbv iota.
    rewrite app_nil_r, IH. now apply flush_word.
Qed.

(** ** Normalization *)

Lemma sub_spaces_only_sp (s : str) : forall in_run,
  Forall (fun c => Py.isspace c = true -> c = Py.SP)
         (Py.sub_spaces in_run s).
Proof.
  induction s as [|c s IH]; intros in_run; simpl; [constructor|].
  destruct (Py.isspace c) eqn:Hc.
  - destruct in_run; [apply IH|]. constructor; [reflexivity|apply IH].
  - constructor; [congruence|apply IH].
Qed.

Lemma lstrip_suffix (s : str) : exists spaces, s = spaces ++ Py.lstrip s.
Proof.
  induction s as [|c s [spaces IH]]; simpl; [now exists []|].
  destruct (Py.isspace c).
  - exists (c :: spaces). simpl. now f_equal.
  - now exists [].
Qed.

Lemma rstrip_prefix (s : str) : exists spaces, s = Py.rstrip s ++ spaces.
Proof.
  unfold Py.rstrip. destruct (lstrip_suffix (rev s)) as [spaces E].
  exists (rev spaces). rewrite <- rev_app_distr, <- E.
  now rewrite rev_involutive.
Qed.

Lemma strip_incl (s : str) : incl (Py.strip s) s.
Proof.
  unfold Py.strip. intros c Hc.
  destruct (rstrip_prefix (Py.lstrip s)) as [post E].
  destruct (lstrip_suffix s) as [pre E'].
  rewrite E', E. apply in_or_app. right. apply in_or_app. now left.
Qed.

Lemma lstrip_head (s : str) (c : char) (rest : str) :
  Py.lstrip s = c :: rest -> Py.isspace c = false.
Proof.
  induction s as [|d s IH]; simpl; [discriminate|].
  destruct (Py.isspace d) eqn:Hd; [exact IH|]. congruence.
Qed.

(** The text returned by [preprocess_text] holds only letters [a-z] and
    the space. *)
Lemma preprocess_text_charset (text : str) :
  Forall letter_or_space (preprocess_text text).
Proof.
  unfold preprocess_text, Py.re_sub_nonletters, Py.re_sub_spaces.
  apply Forall_forall. intros c Hc. apply strip_incl in Hc.
  apply filter_In in Hc. destruct Hc as [Hc Hkeep].
  pose proof (sub_spaces_only_sp (Py.lower (Py.re_sub_tags text)) false)
    as Hsp.
  rewrite Forall_forall in Hsp. specialize (Hsp c Hc).
  unfold letter_or_space.
  apply orb_prop in Hkeep. destruct Hkeep; auto.
Qed.

(** The text returned by [preprocess_text] neither starts nor ends with
    white space. *)
Lemma preprocess_text_trimmed (text : str) :
  (forall c rest, preprocess_text text = c :: rest -> Py.isspace c = false)
  /\ (forall front c, preprocess_text text = front ++ [c] ->
                      Py.isspace c = false).
Proof.
  unfold preprocess_text.
  set (t := Py.re_sub_nonletters _). unfold Py.strip. split.
  - intros c rest E.
    destruct (rstrip_prefix (Py.lstrip t)) as [post E']. rewrite E in E'.
    now apply lstrip_head in E'.
  - intros front c E. unfold Py.rstrip in E.
    apply (f_equal (@rev char)) in E.
    rewrite rev_involutive, rev_app_distr in E. simpl in E.
    now apply lstrip_head in E.
Qed.

(** *** The scan for tags never runs out of fuel *)

Lemma tag_body_shorter (s rest : str) : forall seen,
  Py.tag_body seen s = Some rest -> (length rest < length s)%nat.
Proof.
  induction s as [|c s IH]; intros seen; simpl; [discriminate|].
  destruct (c =? Py.GT)%N.
  - destruct seen; [|discriminate]. intros [= ->]. lia.
  - intros H. apply IH in H. lia.
Qed.

Lemma match_tag_shorter (s rest : str) :
  Py.match_tag s = Some rest -> (S (length rest) < length s)%nat.
Proof.
  destruct s as [|c s]; simpl; [discriminate|].
  destruct (c =? Py.LT)%N; [|discriminate].
  intros H. apply tag_body_shorter in H. lia.
Qed.

(** Any fuel of at least the length of the text gives the result of
    [re_sub_tags]. *)
Lemma sub_tags_enough_fuel (fuel : nat) : forall fuel' s,
  (length s <= fuel)%nat -> (length s <= fuel')%nat ->
  Py.sub_tags fuel s = Py.sub_tags fuel' s.
Proof.
  induction fuel as [|fuel IH]; intros fuel' s H H'.
  - destruct s; [|simpl in H; lia]. now destruct fuel'.
  - destruct s as [|c s]; [now destruct fuel'|].
    destruct fuel' as [|fuel']; [simpl in H'; lia|].
    cbn [Py.sub_tags].
    destruct (Py.match_tag (c :: s)) as [rest|] eqn:E.
    + apply match_tag_shorter in E. simpl in *. apply IH; lia.
    + f_equal. simpl in *. apply IH; lia.
Qed.

(** The substitution proceeds as the regular expression engine does: a
    tag at the head is dropped and the scan goes on after it, any other
    code point is kept. *)
Lemma re_sub_tags_step (c : char) (s : str) :
  Py.re_sub_tags (c :: s)
  = match Py.match_tag (c :: s) with
    | Some rest => Py.re_sub_tags rest
    | None => c :: Py.re_sub_tags s
    end.
Proof.
  unfold Py.re_sub_tags. cbn [length Py.sub_tags].
  destruct (Py.match_tag (c :: s)) as [rest|] eqn:E.
  - apply match_tag_shorter in E. simpl in E.
    apply sub_tags_enough_fuel; lia.
  - reflexivity.
Qed.

(** *** Normalizing a normalized text *)

Lemma re_sub_tags_no_tag (s : str) :
  Forall (fun c => c <> Py.LT) s -> Py.re_sub_tags s = s.
Proof.
  induction 1 as [|c s Hc _ IH]; [reflexivity|].
  rewrite re_sub_tags_step. simpl.
  destruct (N.eqb_spec c Py.LT); [contradiction|]. now rewrite IH.
Qed.

Lemma is_az_facts (c : char) :
  Py.is_az c = true ->
  c <> Py.LT /\ Py.lower_char c = [c] /\ Py.isspace c = false.
Proof.
  unfold Py.is_az, Py.lower_char, Py.LT. intros H.
  apply andb_prop in H. destruct H as [Hlo Hhi].
  apply N.leb_le in Hlo, Hhi.
  repeat split.
  - lia.
  - destruct (N.leb_spec 65 c), (N.leb_spec c 90); simpl; try lia.
    destruct (N.eqb_spec c 304); [lia|].
    destruct (N.eqb_spec c 8490); [lia|reflexivity].
  - unfold Py.isspace, Py.whitespace. apply not_true_is_false.
    intros Hs. apply existsb_exists in Hs. destruct Hs as [w [Hw E]].
    apply N.eqb_eq in E. subst w. simpl in Hw.
    repeat (destruct Hw as [Hw|Hw]; [lia|]). exact Hw.
Qed.

Lemma lower_normalized (s : str) :
  Forall letter_or_space s -> Py.lower s = s.
Proof.
  unfold Py.lower. induction 1 as [|c s Hc _ IH]; [reflexivity|].
  simpl. rewrite IH. destruct Hc as [Hc| ->]; [|reflexivity].
  now destruct (is_az_facts c Hc) as [_ [-> _]].
Qed.

Lemma sub_spaces_normalized (s : str) : forall in_run,
  Forall letter_or_space s ->
  Forall letter_or_space (Py.sub_spaces in_run s).
Proof.
  induction s as [|c s IH]; intros in_run H; simpl; [constructor|].
  inversion H as [|? ? Hc Hs]; subst.
  destruct (Py.isspace c).
  - destruct in_run; [now apply IH|].
    constructor; [now right|now apply IH].
  - constructor; [assumption|now apply IH].
Qed.

Lemma re_sub_nonletters_normalized (s : str) :
  Forall letter_or_space s -> Py.re_sub_nonletters s = s.
Proof.
  unfold Py.re_sub_nonletters.
  induction 1 as [|c s Hc _ IH]; [reflexivity|].
  simpl. rewrite IH. now destruct Hc as [-> | ->].
Qed.

Lemma sub_spaces_last (s : str) (c : char) : forall in_run,
  Py.isspace c = false ->
  Py.sub_spaces in_run (s ++ [c]) = Py.sub_spaces in_run s ++ [c].
Proof.
  induction s as [|d s IH]; intros in_run Hc; simpl.
  - now rewrite Hc.
  - destruct (Py.isspace d); [destruct in_run|]; now rewrite IH.
Qed.

Lemma rstrip_last (s : str) (c : char) :
  Py.isspace c = false -> Py.rstrip (s ++ [c]) = s ++ [c].
Proof.
  intros Hc. unfold Py.rstrip. rewrite rev_app_distr. simpl.
  rewrite Hc. simpl. now rewrite rev_involutive.
Qed.

(** Collapsing the white space of a text that has none at either end
    leaves none at either end. *)
Lemma strip_sub_spaces (s : str) :
  (forall c rest, s = c :: rest -> Py.isspace c = false) ->
  (forall front c, s = front ++ [c] -> Py.isspace c = false) ->
  Py.strip (Py.re_sub_spaces s) = Py.re_sub_spaces s.
Proof.
  intros Hhead Hlast. unfold Py.strip, Py.re_sub_spaces.
  destruct s as [|c s]; [reflexivity|].
  pose proof (Hhead c s eq_refl) as Hc.
  assert (Hl : Py.lstrip (Py.sub_spaces false (c :: s))
               = Py.sub_spaces false (c :: s)).
  { simpl. rewrite Hc. simpl. now rewrite Hc. }
  rewrite Hl.
  destruct (exists_last (l := c :: s) ltac:(discriminate))
    as [front [d E]].
  rewrite E in *. pose proof (Hlast front d eq_refl) as Hd.
  rewrite sub_spaces_last by assumption. now apply rstrip_last.
Qed.

(** On a text made of letters and spaces, with no space at either end,
    [preprocess_text] does nothing but collapse the runs of spaces. *)
Lemma preprocess_text_normalized (s : str) :
  Forall letter_or_space s ->
  (forall c rest, s = c :: rest -> Py.isspace c = false) ->
  (forall front c, s = front ++ [c] -> Py.isspace c = false) ->
  preprocess_text s = Py.re_sub_spaces s.
Proof.
  intros Hs Hhead Hlast. unfold preprocess_text.
  rewrite re_sub_tags_no_tag.
  - rewrite (lower_normalized s Hs).
    rewrite re_sub_nonletters_normalized
      by now apply sub_spaces_normalized.
    now apply strip_sub_spaces.
  - apply Forall_forall. intros c Hc. rewrite Forall_forall in Hs.
    destruct (Hs c Hc) as [Haz| ->]; [|discriminate].
    now destruct (is_az_facts c Haz).
Qed.

(** A second application of [preprocess_text] collapses the runs of
    spaces that the first one left, and does nothing else. *)
Lemma preprocess_text_twice (text : str) :
  preprocess_text (preprocess_text text)
  = Py.re_sub_spaces (preprocess_text text).
Proof.
  destruct (preprocess_text_trimmed text) as [Hhead Hlast].
  apply preprocess_text_normalized;
    [apply preprocess_text_charset|assumption|assumption].
Qed.

Lemma sub_spaces_again (s : str) : forall in_run,
  Py.sub_spaces in_run (Py.sub_spaces in_run s) = Py.sub_spaces in_run s.
Proof.
  induction s as [|c s IH]; intros in_run; simpl; [reflexivity|].
  destruct (Py.isspace c) eqn:Hc.
  - destruct in_run; [apply IH|].
    cbn [Py.sub_spaces]. change (Py.isspace Py.SP) with true. cbv iota.
    now rewrite IH.
  - cbn [Py.sub_spaces]. rewrite Hc.
    destruct in_run; now rewrite IH.
Qed.

(** From the second application on, [preprocess_text] changes nothing. *)
Lemma preprocess_text_thrice (text : str) :
  preprocess_text (preprocess_text (preprocess_text text))
  = preprocess_text (preprocess_text text).
Proof.
  rewrite (preprocess_text_twice (preprocess_text text)).
  rewrite preprocess_text_twice. apply sub_spaces_again.
Qed.

Lemma split_from_sub_spaces (s : str) :
  (forall cur,
     Py.split_from cur (Py.sub_spaces false s) = Py.split_from cur s)
  /\ Py.split_from [] (Py.sub_spaces true s) = Py.split_from [] s.
Proof.
  induction s as [|c s [IHf IHt]]; [now split|].
  split; [intros cur|]; cbn [Py.sub_spaces Py.split_from];
    destruct (Py.isspace c) eqn:Hc; cbn [Py.split_from Py.flush];
    rewrite ?Hc; change (Py.isspace Py.SP) with true; cbv iota;
    now rewrite ?IHf, ?IHt.
Qed.

(** The words of the text are the same after one application and after
    two: the chunker and the workers, which see the text through
    [split()], are not affected by the runs of spaces. *)
Lemma preprocess_text_twice_words (text : str) :
  Py.split (preprocess_text (preprocess_text text))
  = Py.split (preprocess_text text).
Proof.
  rewrite preprocess_text_twice. unfold Py.split, Py.re_sub_spaces.
  apply split_from_sub_spaces.
Qed.

(** C2, at a failing input.  Deleting the ampersand leaves the two spaces
    around it next to each other: the normalized text holds a run of two
    spaces. *)
Theorem preprocess_text_leaves_double_space :
  preprocess_text (py "rock & roll") = py "rock  roll"
  /\ exists front back,
       preprocess_text (py "rock & roll")
       = front ++ [Py.SP; Py.SP] ++ back.
Proof.
  split; [reflexivity|]. now exists (py "rock"), (py "roll").
Qed.

(** C1, at a failing input.  Normalizing ["a 1 b"] gives ["a  b"] with two
    spaces; normalizing that again collapses them, so the second
    application changes the text. *)
Theorem preprocess_text_twice_differs :
  preprocess_text (py "a 1 b") = py "a  b"
  /\ preprocess_text (preprocess_text (py "a 1 b")) = py "a b"
  /\ preprocess_text (preprocess_text (py "a 1 b"))
     <> preprocess_text (py "a 1 b").
Proof. repeat split. discriminate. Qed.

(** ** Slices *)

Lemma firstn_add {A} (a d : nat) : forall l : list A,
  firstn (a + d) l = firstn a l ++ firstn d (skipn a l).
Proof.
  induction a as [|a IH]; intros [|x l]; simpl;
    try reflexivity.
  - now rewrite firstn_nil.
  - now rewrite IH.
Qed.

Lemma slice_extends {A} (l : list A) (a b : Z) :
  0 <= a <= b -> b <= Py.len l ->
  firstn (Z.to_nat a) l ++ Py.slice l a b = firstn (Z.to_nat b) l.
Proof.
  intros Hab Hb. unfold Py.slice, Py.clamp.
  destruct (Z.ltb_spec a 0), (Z.ltb_spec b 0); try lia.
  rewrite !Z.min_l by lia.
  replace (Z.to_nat b) with (Z.to_nat a + Z.to_nat (b - a))%nat by lia.
  apply eq_sym, firstn_add.
Qed.

Lemma slice_incl {A} (l : list A) (a b : Z) : incl (Py.slice l a b) l.
Proof.
  assert (Hfirst : forall n (m : list A), incl (firstn n m) m).
  { intros n m x Hx. rewrite <- (firstn_skipn n m).
    apply in_or_app. now left. }
  assert (Hskip : forall n (m : list A), incl (skipn n m) m).
  { intros n m x Hx. rewrite <- (firstn_skipn n m).
    apply in_or_app. now right. }
  unfold Py.slice. intros x Hx.
  now apply Hfirst, Hskip in Hx.
Qed.

Lemma slice_empty {A} (l : list A) (a : Z) : Py.slice l a a = [].
Proof. unfold Py.slice. now rewrite Z.sub_diag. Qed.

(** ** The chunker *)

Section Chunker.

Variable words : list str.
Variable chunk_size : Z.

Lemma concat_inner_slices (k : nat) :
  0 <= chunk_size ->
  Z.of_nat k * chunk_size <= Py.len words ->
  concat (map (fun i => Py.slice words (i * chunk_size) ((i + 1) * chunk_size))
              (map Z.of_nat (seq 0 k)))
  = firstn (Z.to_nat (Z.of_nat k * chunk_size)) words.
Proof.
  intros Hcs. induction k as [|k IH]; intros Hk; [reflexivity|].
  replace (Z.of_nat (S k) * chunk_size)
    with ((Z.of_nat k + 1) * chunk_size) in * by lia.
  rewrite seq_S, !map_app, concat_app, IH by nia.
  cbn [map concat Nat.add]. rewrite app_nil_r.
  apply slice_extends; nia.
Qed.

End Chunker.

(** The chunks are the inner ranges followed by the range that runs to the
    end of the word list, each joined with single spaces. *)
Lemma split_text_into_chunks_ranges (text : str) (n : Z) :
  1 <= n ->
  let words := Py.split text in
  let cs := Py.len words / n in
  split_text_into_chunks text n
  = Ok (map (Py.join [Py.SP])
          (map (fun i => Py.slice words (i * cs) ((i + 1) * cs))
               (map Z.of_nat (seq 0 (Z.to_nat (n - 1))))
           ++ [Py.slice words ((n - 1) * cs) (Py.len words)])).
Proof.
  intros Hn words cs. unfold split_text_into_chunks, Py.floordiv.
  destruct (Z.eqb_spec n 0) as [?|_]; [lia|].
  fold words. fold cs. f_equal. unfold Py.range.
  replace (Z.to_nat n) with (S (Z.to_nat (n - 1))) by lia.
  rewrite seq_S, !map_app, !map_map. simpl. f_equal.
  - apply map_ext_in. intros i Hi. apply in_seq in Hi.
    destruct (Z.eqb_spec (Z.of_nat i) (n - 1)) as [?|_]; [lia|reflexivity].
  - replace (Z.of_nat (Z.to_nat (n - 1))) with (n - 1) by lia.
    now rewrite Z.eqb_refl.
Qed.

Lemma len_concat {A} (ls : list (list A)) :
  Py.len (concat ls) = fold_right Z.add 0 (map Py.len ls).
Proof.
  unfold Py.len. induction ls as [|l ls IH]; [reflexivity|].
  simpl. rewrite length_app, Nat2Z.inj_add, IH. reflexivity.
Qed.

Lemma split_join_all (ranges : list (list str)) :
  Forall (Forall is_word) ranges ->
  map Py.split (map (Py.join [Py.SP]) ranges) = ranges.
Proof.
  induction 1 as [|r ranges Hr _ IH]; [reflexivity|].
  simpl. now rewrite split_join, IH.
Qed.

Lemma slice_words (text : str) (a b : Z) :
  Forall is_word (Py.slice (Py.split text) a b).
Proof.
  apply Forall_forall. intros w Hw. apply slice_incl in Hw.
  pose proof (split_words text) as H. rewrite Forall_forall in H.
  now apply H.
Qed.

(** C4. For every text and every number of chunks [n >= 1],
    [split_text_into_chunks] returns exactly [n] segments; the word lists
    of the segments, concatenated in segment order, are the word list of
    the text, so that the word counts of the segments add up to the word
    count of the text; and when [n] exceeds the word count every segment
    but the last is the empty string, the last one holding all the
    words. *)
Theorem chunker_complete (text : str) (n : Z) :
  1 <= n ->
  exists chunks,
    split_text_into_chunks text n = Ok chunks /\
    Py.len chunks = n /\
    concat (map Py.split chunks) = Py.split text /\
    fold_right Z.add 0 (map (fun c => Py.len (Py.split c)) chunks)
    = Py.len (Py.split text) /\
    (Py.len (Py.split text) < n ->
     chunks
     = repeat [] (Z.to_nat (n - 1)) ++ [Py.join [Py.SP] (Py.split text)]).
Proof.
  intros Hn. eexists. split; [now apply split_text_into_chunks_ranges|].
  set (words := Py.split text). set (cs := Py.len words / n).
  assert (Hlen : 0 <= Py.len words) by (unfold Py.len; lia).
  assert (Hcs : 0 <= cs) by (apply Z.div_pos; lia).
  assert (Hmul : n * cs <= Py.len words) by (apply Z.mul_div_le; lia).
  assert (Hconcat :
    concat (map Py.split
      (map (Py.join [Py.SP])
         (map (fun i => Py.slice words (i * cs) ((i + 1) * cs))
              (map Z.of_nat (seq 0 (Z.to_nat (n - 1))))
          ++ [Py.slice words ((n - 1) * cs) (Py.len words)])))
    = words).
  { rewrite split_join_all.
    - rewrite concat_app, concat_inner_slices by nia.
      cbn [concat]. rewrite app_nil_r.
      replace (Z.of_nat (Z.to_nat (n - 1))) with (n - 1) by lia.
      rewrite slice_extends by nia.
      unfold Py.len. rewrite Nat2Z.id. apply firstn_all.
    - apply Forall_app. split.
      + apply Forall_forall. intros r Hr.
        apply in_map_iff in Hr. destruct Hr as [i [<- _]].
        apply slice_words.
      + constructor; [apply slice_words|constructor]. }
  repeat split.
  - unfold Py.len. rewrite !length_map, length_app, !length_map, length_seq.
    simpl. lia.
  - exact Hconcat.
  - match goal with
    | |- fold_right _ _ (map _ ?chunks) = _ =>
        transitivity (Py.len (concat (map Py.split chunks)))
    end.
    + rewrite len_concat. now rewrite (map_map Py.split (@Py.len str)).
    + now rewrite Hconcat.
  - intros Hfew. clear Hconcat.
    assert (Hzero : cs = 0) by (apply Z.div_small; lia).
    rewrite map_app, Hzero, !map_map. f_equal.
    + rewrite <- (length_seq (Z.to_nat (n - 1)) 0) at 2.
      induction (seq 0 (Z.to_nat (n - 1))) as [|i l IH]; [reflexivity|].
      simpl. rewrite IH. f_equal.
      replace (Z.of_nat i * 0) with ((Z.of_nat i + 1) * 0) by lia.
      now rewrite slice_empty.
    + simpl. do 2 f_equal.
      pose proof (slice_extends words 0 (Py.len words)) as E.
      simpl in E. replace ((n - 1) * 0) with 0 by lia.
      rewrite E by lia.
      unfold Py.len. rewrite Nat2Z.id. apply firstn_all.
Qed.

Lemma chunker_complete_witness :
  1 <= 10 /\
  exists chunks,
    split_text_into_chunks (py "alpha beta gamma") 10 = Ok chunks /\
    Py.len chunks = 10 /\
    concat (map Py.split chunks) = Py.split (py "alpha beta gamma") /\
    fold_right Z.add 0 (map (fun c => Py.len (Py.split c)) chunks)
    = Py.len (Py.split (py "alpha beta gamma")) /\
    (Py.len (Py.split (py "alpha beta gamma")) < 10 ->
     chunks
     = repeat [] (Z.to_nat (10 - 1))
       ++ [Py.join [Py.SP] (Py.split (py "alpha beta gamma"))]).
Proof.
  split; [lia|].
  apply (chunker_complete (py "alpha beta gamma") 10). lia.
Defined.

(** ** The map worker *)

Lemma in_set_spec (w : str) (s : list str) : in_set w s = true <-> In w s.
Proof. unfold in_set. destruct (in_dec str_eq_dec w s); intuition congruence. Qed.

Lemma emit_words (self : MapReduceWordAnalyzer) (tokens : list str) :
  Forall is_word tokens ->
  flat_map
    (fun word =>
       let word := Py.strip word in
       if (2 <? Py.len word) && negb (in_set word (stop_words self))
       then [(word, 1)]
       else [])
    tokens
  = map (fun token => (token, 1)) (filter (retained self) tokens).
Proof.
  match goal with |- _ -> flat_map ?f _ = _ => set (emit := f) end.
  induction 1 as [|w tokens [_ Hw] _ IH]; [reflexivity|].
  change (flat_map emit (w :: tokens)) with (emit w ++ flat_map emit tokens).
  rewrite IH. unfold emit. cbv zeta.
  rewrite (strip_spacefree w Hw). cbn [filter]. unfold retained.
  now destruct ((2 <? Py.len w) && negb (in_set w (stop_words self))).
Qed.

(** C5. For every segment, [map_function] emits the pair [(token, 1)] once
    for each token of [split()] whose length exceeds 2 and which is not a
    stop word, in the order of the tokens, and nothing else. *)
Theorem map_function_emission (self : MapReduceWordAnalyzer) (segment : str) :
  map_function self segment
  = map (fun token => (token, 1))
        (filter (fun token =>
                   (2 <? Py.len token)
                   && negb (in_set token (stop_words self)))
                (Py.split segment)).
Proof. unfold map_function. apply emit_words, split_words. Qed.

Lemma map_function_pairs (self : MapReduceWordAnalyzer) (segment w : str)
      (c : Z) :
  In (w, c) (map_function self segment) ->
  c = 1 /\ 2 < Py.len w /\ ~ In w (stop_words self).
Proof.
  unfold map_function. rewrite emit_words by apply split_words. intros H.
  apply in_map_iff in H. destruct H as [t [E Ht]].
  inversion E; subst. apply filter_In in Ht. destruct Ht as [_ Ht].
  apply andb_prop in Ht. destruct Ht as [Hlen Hstop].
  repeat split.
  - now apply Z.ltb_lt.
  - intros Hin. apply in_set_spec in Hin. rewrite Hin in Hstop. discriminate.
Qed.

(** ** The reducer *)

Lemma dict_get_add (d : dict) (k w : str) (c : Z) :
  dict_get k (dict_add d w c)
  = if str_eq_dec w k then accumulate (dict_get k d) [c] else dict_get k d.
Proof.
  unfold accumulate, sum.
  induction d as [|[k' v] d IH]; cbn [dict_add dict_get fold_right].
  - destruct (str_eq_dec w k); [f_equal; lia|reflexivity].
  - destruct (str_eq_dec k' w) as [->|Hkw]; cbn [dict_get].
    + destruct (str_eq_dec w k); [f_equal; lia|reflexivity].
    + destruct (str_eq_dec k' k) as [->|Hk].
      * destruct (str_eq_dec w k); [congruence|reflexivity].
      * exact IH.
Qed.

Lemma dict_get_add_pairs (k : str) (pairs : list (str * Z)) : forall d,
  dict_get k (add_pairs d pairs)
  = accumulate (dict_get k d) (counts_of k pairs).
Proof.
  unfold add_pairs, counts_of.
  induction pairs as [|[w c] pairs IH]; intros d; [reflexivity|].
  cbn [fold_left filter fst]. rewrite IH, dict_get_add.
  destruct (str_eq_dec w k) as [->|Hw]; [|reflexivity].
  cbn [map snd].
  destruct (map snd _) as [|c' cs'], (dict_get k d) as [v|];
    cbn [accumulate sum fold_right]; f_equal; lia.
Qed.

Lemma reduce_function_concat (mapped_data : list (list (str * Z))) :
  reduce_function mapped_data = add_pairs [] (concat mapped_data).
Proof.
  unfold reduce_function. generalize (@nil (str * Z)) as d.
  induction mapped_data as [|l ls IH]; intros d; [reflexivity|].
  cbn [fold_left concat]. rewrite IH. unfold add_pairs.
  now rewrite fold_left_app.
Qed.

(** The entry of a word in the reduced table: absent when no pair carries
    the word, otherwise the sum of the counts of its pairs. *)
Lemma dict_get_reduce (k : str) (mapped_data : list (list (str * Z))) :
  dict_get k (reduce_function mapped_data)
  = match counts_of k (concat mapped_data) with
    | [] => None
    | cs => Some (sum cs)
    end.
Proof.
  rewrite reduce_function_concat, dict_get_add_pairs. simpl.
  now destruct (counts_of k (concat mapped_data)).
Qed.

Lemma counts_of_perm (k : str) (p q : list (str * Z)) :
  Permutation p q -> Permutation (counts_of k p) (counts_of k q).
Proof.
  unfold counts_of.
  induction 1 as [|x p q _ IH|x y p|p q r _ IH1 _ IH2]; simpl.
  - constructor.
  - destruct (str_eq_dec (fst x) k); simpl; auto.
  - destruct (str_eq_dec (fst x) k), (str_eq_dec (fst y) k); simpl;
      auto using perm_swap.
  - now transitivity (map snd
        (filter (fun p => if str_eq_dec (fst p) k then true else false) q)).
Qed.

Lemma concat_perm {A} (l l' : list (list A)) :
  Permutation l l' -> Permutation (concat l) (concat l').
Proof.
  induction 1 as [|x l l' _ IH|x y l|l l' l'' _ IH1 _ IH2]; simpl.
  - constructor.
  - now apply Permutation_app_head.
  - rewrite !app_assoc. apply Permutation_app_tail, Permutation_app_comm.
  - now transitivity (concat l').
Qed.

Lemma sum_perm (l l' : list Z) : Permutation l l' -> sum l = sum l'.
Proof.
  unfold sum. induction 1; simpl; lia.
Qed.

(** C6. For every list of per-segment results and every permutation of it,
    [reduce_function] produces equal dicts: the same words with the same
    counts. *)
Theorem reduce_function_order_independent
        (mapped_data permuted : list (list (str * Z))) :
  Permutation mapped_data permuted ->
  dict_equal (reduce_function mapped_data) (reduce_function permuted).
Proof.
  intros Hperm k. rewrite !dict_get_reduce.
  pose proof (counts_of_perm k _ _ (concat_perm _ _ Hperm)) as Hcounts.
  destruct (counts_of k (concat mapped_data)) as [|c cs].
  - apply Permutation_nil in Hcounts. now rewrite Hcounts.
  - destruct (counts_of k (concat permuted)) as [|c' cs'].
    + apply Permutation_sym, Permutation_nil in Hcounts. discriminate.
    + f_equal. now apply sum_perm.
Qed.

Lemma reduce_function_order_independent_witness :
  dict_equal
    (reduce_function [[(py "fox", 1); (py "dog", 1)]; [(py "fox", 1)]])
    (reduce_function [[(py "fox", 1)]; [(py "fox", 1); (py "dog", 1)]]).
Proof.
  apply reduce_function_order_independent. apply perm_swap.
Defined.

Lemma counts_of_nonempty (k : str) (pairs : list (str * Z)) :
  counts_of k pairs <> [] <-> exists c, In (k, c) pairs.
Proof.
  unfold counts_of. induction pairs as [|[w c] pairs IH]; simpl.
  - split; [congruence|]. now intros [c []].
  - destruct (str_eq_dec w k) as [->|Hw]; simpl.
    + split; [|congruence]. intros _. exists c. now left.
    + rewrite IH. split; intros [c' H]; exists c'; [now right|].
      destruct H as [E|H]; [congruence|assumption].
Qed.

Lemma counts_of_in (k : str) (pairs : list (str * Z)) (c : Z) :
  In c (counts_of k pairs) -> In (k, c) pairs.
Proof.
  unfold counts_of. intros H. apply in_map_iff in H.
  destruct H as [[w c'] [E H]]. apply filter_In in H. simpl in *.
  destruct H as [H Hw]. destruct (str_eq_dec w k); [|discriminate].
  now subst.
Qed.

Lemma dict_get_keys (k : str) (d : dict) :
  In k (map fst d) <-> exists v, dict_get k d = Some v.
Proof.
  induction d as [|[k' v] d IH]; simpl.
  - split; [tauto|]. now intros [v H].
  - destruct (str_eq_dec k' k) as [->|Hk].
    + split; eauto.
    + rewrite <- IH. tauto.
Qed.

(** A word is a key of the reduced table exactly when some pair of the
    mapped data carries it. *)
Lemma reduce_function_keys (k : str) (mapped_data : list (list (str * Z))) :
  In k (map fst (reduce_function mapped_data))
  <-> exists l c, In l mapped_data /\ In (k, c) l.
Proof.
  rewrite dict_get_keys.
  assert (Hflat : (exists c, In (k, c) (concat mapped_data))
                  <-> exists l c, In l mapped_data /\ In (k, c) l).
  { split.
    - intros [c H]. apply in_concat in H. destruct H as [l [Hl H]]. eauto.
    - intros [l [c [Hl H]]]. exists c. apply in_concat. eauto. }
  rewrite <- Hflat, <- counts_of_nonempty.
  setoid_rewrite dict_get_reduce.
  destruct (counts_of k (concat mapped_data)); split;
    try congruence; eauto.
  now intros [v H].
Qed.

Lemma sum_at_least_one (cs : list Z) :
  cs <> [] -> Forall (fun c => 1 <= c) cs -> 1 <= sum cs.
Proof.
  unfold sum. intros Hne H. induction H as [|c cs Hc Hcs IH]; [congruence|].
  simpl. destruct cs as [|c' cs]; simpl in *; [lia|].
  assert (1 <= c' + fold_right Z.add 0 cs) by (apply IH; congruence). lia.
Qed.

Lemma reduce_function_values (mapped_data : list (list (str * Z))) :
  Forall (Forall (fun p => 1 <= snd p)) mapped_data ->
  forall k v, dict_get k (reduce_function mapped_data) = Some v -> 1 <= v.
Proof.
  intros Hpos k v. rewrite dict_get_reduce.
  destruct (counts_of k (concat mapped_data)) as [|c cs] eqn:E;
    [discriminate|].
  intros [= <-]. change (1 <= sum (c :: cs)).
  apply sum_at_least_one; [congruence|].
  apply Forall_forall. intros c' Hc'. rewrite <- E in Hc'.
  apply counts_of_in, in_concat in Hc'. destruct Hc' as [l [Hl Hc']].
  rewrite Forall_forall in Hpos. specialize (Hpos l Hl).
  rewrite Forall_forall in Hpos. exact (Hpos _ Hc').
Qed.

(** Adding a count never duplicates a key. *)
Lemma dict_add_keys (d : dict) (w : str) (c : Z) :
  map fst (dict_add d w c)
  = if in_dec str_eq_dec w (map fst d) then map fst d else map fst d ++ [w].
Proof.
  induction d as [|[k v] d IH]; simpl; [reflexivity|].
  destruct (str_eq_dec k w) as [->|Hk]; simpl; [reflexivity|].
  rewrite IH. destruct (in_dec str_eq_dec w (map fst d)); reflexivity.
Qed.

Lemma dict_add_wf (d : dict) (w : str) (c : Z) :
  dict_wf d -> dict_wf (dict_add d w c).
Proof.
  unfold dict_wf. rewrite dict_add_keys. intros H.
  destruct (in_dec str_eq_dec w (map fst d)) as [|Hn]; [assumption|].
  apply NoDup_rev in H. rewrite <- (rev_involutive (map fst d ++ [w])).
  apply NoDup_rev. rewrite rev_app_distr. simpl.
  constructor; [|assumption]. now rewrite <- in_rev.
Qed.

Lemma reduce_function_wf (mapped_data : list (list (str * Z))) :
  dict_wf (reduce_function mapped_data).
Proof.
  rewrite reduce_function_concat. unfold add_pairs.
  assert (H : dict_wf []) by constructor. revert H.
  generalize (@nil (str * Z)) as d.
  induction (concat mapped_data) as [|[w c] pairs IH]; intros d Hd;
    [assumption|].
  simpl. now apply IH, dict_add_wf.
Qed.

(** ** The pipeline *)

(** With at least one worker the run completes: the chunker returns, the
    pool accepts the worker count, and the table is the reduction of the
    mapped chunks. *)
Lemma mapreduce_word_count_runs (self : MapReduceWordAnalyzer) (text : str) :
  1 <= num_workers self ->
  exists chunks,
    split_text_into_chunks (preprocess_text text) (num_workers self)
    = Ok chunks
    /\ mapreduce_word_count self text
       = ([LogMapReduceStart; LogPreprocessing; LogTextCleaned;
           LogTextSplit (Py.len chunks); LogMapPhase;
           LogMapPhaseDone (Py.len (map (map_function self) chunks));
           LogReducePhase;
           LogAnalysisDone
             (Py.len (reduce_function (map (map_function self) chunks)))],
          Ok (reduce_function (map (map_function self) chunks))).
Proof.
  intros Hn.
  pose proof (split_text_into_chunks_ranges (preprocess_text text)
                (num_workers self) Hn) as Hsplit.
  cbv zeta in Hsplit. eexists. split; [exact Hsplit|].
  cbv [mapreduce_word_count preprocess_text_logged executor_map
       bind info tell ret lift app].
  rewrite Hsplit.
  destruct (Z.leb_spec (num_workers self) 0) as [?|_]; [lia|].
  reflexivity.
Qed.

Lemma map_function_counts (self : MapReduceWordAnalyzer) (chunks : list str) :
  Forall (Forall (fun p => 1 <= snd p)) (map (map_function self) chunks).
Proof.
  apply Forall_forall. intros l Hl. apply in_map_iff in Hl.
  destruct Hl as [chunk [<- _]]. apply Forall_forall. intros [w c] H.
  apply map_function_pairs in H. simpl. lia.
Qed.

(** C10. When every mapped pair carries a count of at least 1, as the pairs
    of [map_function] do, every value of the table that [reduce_function]
    returns is at least 1, and a word is a key of the table exactly when
    some pair carries it; the same holds for the table that
    [mapreduce_word_count] returns. *)
Theorem table_counts_at_least_one
        (self : MapReduceWordAnalyzer)
        (mapped_data : list (list (str * Z))) (text : str) :
  Forall (Forall (fun p => 1 <= snd p)) mapped_data ->
  1 <= num_workers self ->
  (forall segment, Forall (fun p => snd p = 1) (map_function self segment)) /\
  (forall w c, dict_get w (reduce_function mapped_data) = Some c -> 1 <= c) /\
  (forall w, In w (map fst (reduce_function mapped_data))
             <-> exists l c, In l mapped_data /\ In (w, c) l) /\
  exists log chunks table,
    mapreduce_word_count self text = (log, Ok table) /\
    split_text_into_chunks (preprocess_text text) (num_workers self)
    = Ok chunks /\
    (forall w c, dict_get w table = Some c -> 1 <= c) /\
    (forall w, In w (map fst table)
               <-> exists chunk,
                   In chunk chunks /\ In (w, 1) (map_function self chunk)).
Proof.
  intros Hpos Hn. split; [|split; [|split]].
  - intros segment. apply Forall_forall. intros [w c] H.
    now apply map_function_pairs in H.
  - now apply reduce_function_values.
  - intros w. apply reduce_function_keys.
  - destruct (mapreduce_word_count_runs self text Hn) as [chunks [Hs Hrun]].
    eexists. exists chunks. eexists. split; [exact Hrun|].
    split; [exact Hs|]. split.
    + apply reduce_function_values, map_function_counts.
    + intros w. rewrite reduce_function_keys. split.
      * intros [l [c [Hl Hw]]]. apply in_map_iff in Hl.
        destruct Hl as [chunk [<- Hchunk]]. exists chunk.
        split; [assumption|].
        now destruct (map_function_pairs _ _ _ _ Hw) as [<- _].
      * intros [chunk [Hchunk Hw]]. exists (map_function self chunk), 1.
        split; [now apply in_map|assumption].
Qed.

Lemma table_counts_at_least_one_witness :
  Forall (Forall (fun p : str * Z => 1 <= snd p))
         [[(py "fox", 1); (py "fox", 1)]; []; [(py "jumps", 1)]]
  /\ dict_get (py "fox")
       (reduce_function
          [[(py "fox", 1); (py "fox", 1)]; []; [(py "jumps", 1)]])
     = Some 2
  /\ 1 <= 2.
Proof.
  assert (Hpos : Forall (Forall (fun p : str * Z => 1 <= snd p))
                   [[(py "fox", 1); (py "fox", 1)]; []; [(py "jumps", 1)]]).
  { repeat constructor; simpl; lia. }
  split; [exact Hpos|]. split; [reflexivity|].
  refine (proj1 (proj2 (table_counts_at_least_one
                          (__init__ 2) _ (py "The fox") Hpos _))
                (py "fox") 2 _).
  - simpl. lia.
  - reflexivity.
Defined.

(** C8. For every text, the table that [mapreduce_word_count] returns has
    no stop word and no word of length at most 2 among its keys. *)
Theorem stop_and_short_words_excluded
        (self : MapReduceWordAnalyzer) (text : str) :
  1 <= num_workers self ->
  exists log table,
    mapreduce_word_count self text = (log, Ok table) /\
    forall w, In w (map fst table) ->
              ~ In w (stop_words self) /\ ~ Py.len w <= 2.
Proof.
  intros Hn.
  destruct (mapreduce_word_count_runs self text Hn) as [chunks [_ Hrun]].
  do 2 eexists. split; [exact Hrun|].
  intros w Hw. apply reduce_function_keys in Hw.
  destruct Hw as [l [c [Hl Hw]]]. apply in_map_iff in Hl.
  destruct Hl as [chunk [<- _]].
  destruct (map_function_pairs _ _ _ _ Hw) as [_ [Hlen Hstop]].
  split; [assumption|lia].
Qed.

Lemma stop_and_short_words_excluded_witness :
  1 <= num_workers (__init__ 4) /\
  exists log table,
    mapreduce_word_count (__init__ 4) (py "The fox is on it, the fox!")
    = (log, Ok table) /\
    forall w, In w (map fst table) ->
              ~ In w (stop_words (__init__ 4)) /\ ~ Py.len w <= 2.
Proof.
  assert (Hn : 1 <= num_workers (__init__ 4)) by (simpl; lia).
  split; [exact Hn|].
  exact (stop_and_short_words_excluded (__init__ 4) _ Hn).
Defined.

(** ** Empty input *)

Lemma reduce_function_nothing (mapped_data : list (list (str * Z))) :
  Forall (eq []) mapped_data -> reduce_function mapped_data = [].
Proof.
  intros H. rewrite reduce_function_concat.
  replace (concat mapped_data) with (@nil (str * Z)); [reflexivity|].
  induction H as [|l ls <- _ IH]; [reflexivity|exact IH].
Qed.

Lemma chunks_without_words (text : str) (n : Z) (chunks : list str) :
  Py.split text = [] ->
  split_text_into_chunks text n = Ok chunks ->
  Forall (eq []) chunks.
Proof.
  unfold split_text_into_chunks. intros ->.
  destruct (Py.floordiv _ n) as [cs|e]; [|discriminate].
  intros [= <-]. apply Forall_forall. intros chunk H.
  apply in_map_iff in H. destruct H as [i [<- _]].
  destruct (Py.slice [] _ _) as [|w ws] eqn:E; [reflexivity|].
  assert (Hin : In w (@nil str)).
  { eapply slice_incl. rewrite E. now left. }
  destruct Hin.
Qed.

Lemma most_common_empty (n : Z) : most_common [] n = [].
Proof.
  unfold most_common. destruct (n <? 0); [reflexivity|apply firstn_nil].
Qed.

(** C9. For every text whose normalized form has no word, the empty string
    included, the run with at least one worker returns the empty table,
    and [get_top_words] on that table returns the empty list; neither
    raises. *)
Theorem empty_input_is_not_an_error
        (self : MapReduceWordAnalyzer) (text : str) (top_n : Z) :
  1 <= num_workers self ->
  Py.split (preprocess_text text) = [] ->
  (exists log, mapreduce_word_count self text = (log, Ok []))
  /\ get_top_words [] top_n = []
  /\ get_top_words_logged [] top_n = ([LogTopHeader top_n], Ok []).
Proof.
  intros Hn Hempty.
  assert (Htop : get_top_words [] top_n = []) by apply most_common_empty.
  split; [|split; [exact Htop|]].
  - destruct (mapreduce_word_count_runs self text Hn) as [chunks [Hs Hrun]].
    eexists. rewrite Hrun. do 2 f_equal.
    apply reduce_function_nothing.
    pose proof (chunks_without_words _ _ _ Hempty Hs) as Hchunks.
    apply Forall_forall. intros l Hl. apply in_map_iff in Hl.
    destruct Hl as [chunk [<- Hchunk]].
    rewrite Forall_forall in Hchunks.
    now rewrite <- (Hchunks chunk Hchunk).
  - unfold get_top_words_logged. rewrite Htop. reflexivity.
Qed.

Lemma empty_input_is_not_an_error_witness :
  (exists log, mapreduce_word_count (__init__ 4) (py " <br> 42 ")
               = (log, Ok []))
  /\ get_top_words [] 10 = []
  /\ get_top_words_logged [] 10 = ([LogTopHeader 10], Ok []).
Proof.
  apply (empty_input_is_not_an_error (__init__ 4) (py " <br> 42 ") 10).
  - simpl. lia.
  - reflexivity.
Defined.

(** ** Sorting by count and the top words *)

Lemma insert_desc_perm (x : str * Z) (l : list (str * Z)) :
  Permutation (x :: l) (insert_desc x l).
Proof.
  induction l as [|y l IH]; simpl; [reflexivity|].
  destruct (snd x <? snd y); [|reflexivity].
  rewrite perm_swap. now apply perm_skip.
Qed.

Lemma sorted_desc_perm (l : list (str * Z)) : Permutation l (sorted_desc l).
Proof.
  induction l as [|x l IH]; simpl; [reflexivity|].
  rewrite <- insert_desc_perm. now apply perm_skip.
Qed.

Lemma insert_desc_sorted (x : str * Z) (l : list (str * Z)) :
  StronglySorted count_ge l -> StronglySorted count_ge (insert_desc x l).
Proof.
  induction 1 as [|y l Hl IH Hy]; simpl.
  - repeat constructor.
  - destruct (Z.ltb_spec (snd x) (snd y)) as [Hlt|Hge].
    + constructor; [exact IH|].
      apply (Permutation_Forall (insert_desc_perm x l)).
      constructor; [unfold count_ge; lia|exact Hy].
    + constructor; [now constructor|].
      constructor; [exact Hge|].
      apply Forall_forall. intros q Hq. rewrite Forall_forall in Hy.
      specialize (Hy q Hq). unfold count_ge in *. lia.
Qed.

Lemma sorted_desc_sorted (l : list (str * Z)) :
  StronglySorted count_ge (sorted_desc l).
Proof.
  induction l as [|x l IH]; simpl; [constructor|].
  now apply insert_desc_sorted.
Qed.

Lemma firstn_incl {A} (n : nat) (l : list A) : incl (firstn n l) l.
Proof.
  intros x Hx. rewrite <- (firstn_skipn n l). apply in_or_app. now left.
Qed.

Lemma firstn_sorted {A} (R : A -> A -> Prop) (n : nat) : forall l,
  StronglySorted R l -> StronglySorted R (firstn n l).
Proof.
  induction n as [|n IH]; intros l Hl; [constructor|].
  destruct Hl as [|x l Hl Hx]; simpl; [constructor|].
  constructor; [now apply IH|].
  apply Forall_forall. intros y Hy. rewrite Forall_forall in Hx.
  now apply Hx, (firstn_incl n l).
Qed.

(** C7. For every frequency table and every [k >= 0], [get_top_words]
    returns exactly min(k, number of distinct words) pairs of the table in
    order of non-increasing count; when [k] is at least the number of
    words these are all the items of the table; on the empty table the
    result is the empty list; and the call returns, it does not raise. *)
Theorem top_words_bound_and_order (table : dict) (k : Z) :
  dict_wf table ->
  0 <= k ->
  Py.len (get_top_words table k)
  = Z.min k (Py.len (nodup str_eq_dec (map fst table)))
  /\ StronglySorted count_ge (get_top_words table k)
  /\ incl (get_top_words table k) table
  /\ (Py.len table <= k -> Permutation (get_top_words table k) table)
  /\ get_top_words [] k = []
  /\ snd (get_top_words_logged table k) = Ok (get_top_words table k).
Proof.
  intros Hwf Hk.
  cut (Py.len (get_top_words table k)
       = Z.min k (Py.len (nodup str_eq_dec (map fst table)))
       /\ StronglySorted count_ge (get_top_words table k)
       /\ incl (get_top_words table k) table
       /\ (Py.len table <= k -> Permutation (get_top_words table k) table)
       /\ get_top_words [] k = []).
  { intros H. repeat (split; [apply H|]). reflexivity. }
  unfold get_top_words, most_common.
  destruct (Z.ltb_spec k 0) as [?|_]; [lia|].
  pose proof (Permutation_length (sorted_desc_perm table)) as Hlen.
  repeat split.
  - rewrite (nodup_fixed_point str_eq_dec Hwf).
    unfold Py.len. rewrite length_firstn, length_map, <- Hlen. lia.
  - apply firstn_sorted, sorted_desc_sorted.
  - intros p Hp. apply firstn_incl in Hp.
    apply (Permutation_in _ (Permutation_sym (sorted_desc_perm table)) Hp).
  - unfold Py.len. intros Hall. rewrite firstn_all2 by lia.
    apply Permutation_sym, sorted_desc_perm.
  - apply firstn_nil.
Qed.

Lemma top_words_bound_and_order_witness :
  let table := [(py "quick", 2); (py "fox", 3); (py "jumps", 1)] in
  Py.len (get_top_words table 2) = 2
  /\ get_top_words table 2 = [(py "fox", 3); (py "quick", 2)]
  /\ StronglySorted count_ge (get_top_words table 2).
Proof.
  intros table.
  assert (Hwf : dict_wf table).
  { unfold dict_wf. simpl. repeat constructor; simpl; intuition discriminate. }
  destruct (top_words_bound_and_order table 2 Hwf ltac:(lia))
    as [Hlen [Hsorted _]].
  split; [exact Hlen|]. split; [reflexivity|exact Hsorted].
Defined.

(** ** Invalid configurations *)

Lemma mapreduce_word_count_zero_workers (self : MapReduceWordAnalyzer)
      (text : str) :
  num_workers self = 0 ->
  mapreduce_word_count self text
  = ([LogMapReduceStart; LogPreprocessing; LogTextCleaned],
     Raise ZeroDivisionError).
Proof.
  intros Hn.
  cbv [mapreduce_word_count preprocess_text_logged executor_map
       split_text_into_chunks Py.floordiv bind info tell ret lift app].
  rewrite Hn. reflexivity.
Qed.

Lemma mapreduce_word_count_negative_workers (self : MapReduceWordAnalyzer)
      (text : str) :
  num_workers self < 0 ->
  mapreduce_word_count self text
  = ([LogMapReduceStart; LogPreprocessing; LogTextCleaned;
      LogTextSplit 0; LogMapPhase],
     Raise ValueError).
Proof.
  intros Hn.
  cbv [mapreduce_word_count preprocess_text_logged executor_map
       split_text_into_chunks Py.floordiv Py.range
       bind info tell ret lift app].
  destruct (Z.eqb_spec (num_workers self) 0) as [?|_]; [lia|].
  destruct (Z.leb_spec (num_workers self) 0) as [_|?]; [|lia].
  destruct (num_workers self) as [|p|p]; try lia. reflexivity.
Qed.

(** C3, as the code has it.  No configuration is checked up front:
    [__init__] stores any worker count and [get_top_words] takes any
    [top_n].  With a worker count below 1 the run does raise, but only
    after the text has been normalized: at the division in the chunker when
    the count is 0, and at the construction of the thread pool, after the
    chunking, when it is negative.  With a negative [top_n],
    [get_top_words] raises nothing and returns the empty list. *)
Theorem invalid_config_is_not_checked_up_front
        (workers top_n : Z) (text : str) (table : dict) :
  workers < 1 ->
  top_n < 0 ->
  num_workers (__init__ workers) = workers
  /\ mapreduce_word_count (__init__ workers) text
     = (if workers =? 0
        then ([LogMapReduceStart; LogPreprocessing; LogTextCleaned],
              Raise ZeroDivisionError)
        else ([LogMapReduceStart; LogPreprocessing; LogTextCleaned;
               LogTextSplit 0; LogMapPhase],
              Raise ValueError))
  /\ get_top_words_logged table top_n = ([LogTopHeader top_n], Ok []).
Proof.
  intros Hw Hk. split; [reflexivity|]. split.
  - destruct (Z.eqb_spec workers 0) as [->|Hne].
    + now apply mapreduce_word_count_zero_workers.
    + apply mapreduce_word_count_negative_workers. simpl. lia.
  - unfold get_top_words_logged, get_top_words, most_common.
    destruct (Z.ltb_spec top_n 0) as [_|?]; [reflexivity|lia].
Qed.

Lemma invalid_config_is_not_checked_up_front_witness :
  mapreduce_word_count (__init__ (-3)) (py "Some text")
  = ([LogMapReduceStart; LogPreprocessing; LogTextCleaned;
      LogTextSplit 0; LogMapPhase],
     Raise ValueError)
  /\ get_top_words_logged [(py "text", 1)] (-2) = ([LogTopHeader (-2)], Ok []).
Proof.
  destruct (invalid_config_is_not_checked_up_front
              (-3) (-2) (py "Some text") [(py "text", 1)]
              ltac:(lia) ltac:(lia)) as [_ [Hrun Htop]].
  split; [exact Hrun|exact Htop].
Defined.

(** C3 fails as stated: a worker count of 0 is accepted by [__init__], the
    run then normalizes the text (both log lines of [preprocess_text] are
    written) before the chunker raises; and a negative [top_n] is not
    refused at all. *)
Lemma invalid_config_rejected_before_work_counterexample :
  num_workers (__init__ 0) = 0
  /\ mapreduce_word_count (__init__ 0) (py "Some text")
     = ([LogMapReduceStart; LogPreprocessing; LogTextCleaned],
        Raise ZeroDivisionError)
  /\ get_top_words_logged [(py "text", 1)] (-1) = ([LogTopHeader (-1)], Ok []).
Proof. repeat split. Qed.

(** ** Further properties of the normalizer *)

(** X1. Whatever the input, the text returned by [preprocess_text] holds
    only the letters [a-z] and the space, and neither its first nor its
    last code point is white space. *)
Theorem normalized_text_shape (text : str) :
  Forall letter_or_space (preprocess_text text)
  /\ Py.strip (preprocess_text text) = preprocess_text text
  /\ (forall c rest, preprocess_text text = c :: rest -> Py.is_az c = true)
  /\ (forall front c, preprocess_text text = front ++ [c] ->
                      Py.is_az c = true).
Proof.
  pose proof (preprocess_text_charset text) as Hcs.
  destruct (preprocess_text_trimmed text) as [Hhead Hlast].
  assert (Haz : forall c, In c (preprocess_text text) ->
                          Py.isspace c = false -> Py.is_az c = true).
  { intros c Hc Hns. rewrite Forall_forall in Hcs.
    destruct (Hcs c Hc) as [H| ->]; [exact H|discriminate]. }
  split; [exact Hcs|]. split; [|split].
  - unfold Py.strip.
    destruct (preprocess_text text) as [|c rest] eqn:E; [reflexivity|].
    assert (Hl : Py.lstrip (c :: rest) = c :: rest).
    { simpl. now rewrite (Hhead c rest eq_refl). }
    rewrite Hl.
    destruct (exists_last (l := c :: rest) ltac:(discriminate))
      as [front [d Ed]].
    rewrite Ed. apply rstrip_last. now apply (Hlast front d).
  - intros c rest E. apply Haz; [rewrite E; now left|].
    now apply (Hhead c rest).
  - intros front c E. apply Haz.
    + rewrite E. apply in_or_app. right. now left.
    + now apply (Hlast front c).
Qed.

(** X2. A second application of [preprocess_text] does nothing but
    collapse the runs of spaces that the first one left, and from then on
    the text is a fixed point: three applications give what two give. *)
Theorem renormalization_settles (text : str) :
  preprocess_text (preprocess_text text)
  = Py.re_sub_spaces (preprocess_text text)
  /\ preprocess_text (preprocess_text (preprocess_text text))
     = preprocess_text (preprocess_text text).
Proof.
  split; [apply preprocess_text_twice|apply preprocess_text_thrice].
Qed.

(** ** Further properties of the pipeline *)

Lemma chunk_words_concat (text : str) (n : Z) (chunks : list str) :
  1 <= n ->
  split_text_into_chunks text n = Ok chunks ->
  concat (map Py.split chunks) = Py.split text.
Proof.
  intros Hn. rewrite split_text_into_chunks_ranges by assumption.
  cbv zeta. intros [= <-].
  set (words := Py.split text). set (cs := Py.len words / n).
  assert (Hlen : 0 <= Py.len words) by (unfold Py.len; lia).
  assert (Hcs : 0 <= cs) by (apply Z.div_pos; lia).
  assert (Hmul : n * cs <= Py.len words) by (apply Z.mul_div_le; lia).
  rewrite split_join_all.
  - rewrite concat_app, concat_inner_slices by nia.
    cbn [concat]. rewrite app_nil_r.
    replace (Z.of_nat (Z.to_nat (n - 1))) with (n - 1) by lia.
    rewrite slice_extends by nia.
    unfold Py.len. rewrite Nat2Z.id. apply firstn_all.
  - apply Forall_app. split.
    + apply Forall_forall. intros r Hr.
      apply in_map_iff in Hr. destruct Hr as [i [<- _]].
      apply slice_words.
    + constructor; [apply slice_words|constructor].
Qed.

Lemma map_function_words (self : MapReduceWordAnalyzer) (text : str) :
  map_function self text
  = map (fun token => (token, 1)) (filter (retained self) (Py.split text)).
Proof. unfold map_function. apply emit_words, split_words. Qed.

Lemma mapped_chunks_concat (self : MapReduceWordAnalyzer)
      (chunks : list str) :
  concat (map (map_function self) chunks)
  = map (fun token => (token, 1))
        (filter (retained self) (concat (map Py.split chunks))).
Proof.
  induction chunks as [|chunk chunks IH]; [reflexivity|].
  cbn [map concat]. rewrite IH, map_function_words.
  now rewrite filter_app, map_app.
Qed.

(** The table of a run with at least one worker is what a single pass
    over the retained words of the normalized text builds. *)
Lemma mapreduce_word_count_table (self : MapReduceWordAnalyzer)
      (text : str) :
  1 <= num_workers self ->
  snd (mapreduce_word_count self text)
  = Ok (add_pairs []
          (map (fun token => (token, 1))
               (filter (retained self)
                       (Py.split (preprocess_text text))))).
Proof.
  intros Hn.
  destruct (mapreduce_word_count_runs self text Hn) as [chunks [Hs Hrun]].
  rewrite Hrun. cbn [snd]. f_equal.
  rewrite reduce_function_concat, mapped_chunks_concat.
  now rewrite (chunk_words_concat _ _ _ Hn Hs).
Qed.

Lemma counts_of_tokens (w : str) (tokens : list str) :
  counts_of w (map (fun token => (token, 1)) tokens)
  = repeat 1 (count_occ str_eq_dec tokens w).
Proof.
  unfold counts_of. induction tokens as [|t tokens IH]; [reflexivity|].
  cbn [map filter fst count_occ].
  destruct (str_eq_dec t w); cbn [map snd repeat]; now rewrite IH.
Qed.

Lemma sum_repeat_one (n : nat) : sum (repeat 1 n) = Z.of_nat n.
Proof.
  unfold sum. induction n as [|n IH]; [reflexivity|].
  cbn [repeat fold_right]. rewrite IH. lia.
Qed.

Lemma count_occ_filter (f : str -> bool) (w : str) (l : list str) :
  count_occ str_eq_dec (filter f l) w
  = if f w then count_occ str_eq_dec l w else 0%nat.
Proof.
  induction l as [|x l IH]; simpl; [now destruct (f w)|].
  destruct (f x) eqn:Hx; simpl; destruct (str_eq_dec x w) as [->|Hne];
    rewrite IH; try rewrite Hx; try reflexivity.
Qed.

Lemma dict_add_total (d : dict) (w : str) (c : Z) :
  sum (map snd (dict_add d w c)) = sum (map snd d) + c.
Proof.
  unfold sum. induction d as [|[k v] d IH]; cbn [dict_add map snd fold_right].
  - lia.
  - destruct (str_eq_dec k w); cbn [map snd fold_right]; [lia|].
    rewrite IH. lia.
Qed.

Lemma add_pairs_total (pairs : list (str * Z)) : forall d,
  sum (map snd (add_pairs d pairs))
  = sum (map snd d) + sum (map snd pairs).
Proof.
  unfold add_pairs.
  induction pairs as [|[w c] pairs IH]; intros d; cbn [fold_left map snd].
  - unfold sum at 3. simpl. lia.
  - rewrite IH, dict_add_total. unfold sum at 4. cbn [fold_right].
    fold (sum (map snd pairs)). lia.
Qed.

Lemma sum_of_ones (tokens : list str) :
  sum (map snd (map (fun token => (token, 1)) tokens)) = Py.len tokens.
Proof.
  unfold sum, Py.len. induction tokens as [|t tokens IH]; [reflexivity|].
  cbn [map snd fold_right length]. rewrite IH. lia.
Qed.

Lemma split_text_into_chunks_by_words (t1 t2 : str) (n : Z) :
  Py.split t1 = Py.split t2 ->
  split_text_into_chunks t1 n = split_text_into_chunks t2 n.
Proof. unfold split_text_into_chunks. now intros ->. Qed.

Lemma mapreduce_word_count_by_words (self : MapReduceWordAnalyzer)
      (t1 t2 : str) :
  Py.split (preprocess_text t1) = Py.split (preprocess_text t2) ->
  mapreduce_word_count self t1 = mapreduce_word_count self t2.
Proof.
  intros H.
  cbv [mapreduce_word_count preprocess_text_logged executor_map
       bind info tell ret lift app].
  now rewrite (split_text_into_chunks_by_words _ _ (num_workers self) H).
Qed.

(** X3. The number of workers has no bearing on the result: with any
    worker count of at least 1 the run returns the table, keys in the same
    order, that [reduce_function] builds from one [map_function] call on
    the whole normalized text; two analyzers with the same stop words
    return the same table. *)
Theorem worker_count_is_irrelevant
        (self other : MapReduceWordAnalyzer) (text : str) :
  1 <= num_workers self ->
  1 <= num_workers other ->
  stop_words self = stop_words other ->
  snd (mapreduce_word_count self text)
  = Ok (reduce_function [map_function self (preprocess_text text)])
  /\ snd (mapreduce_word_count self text)
     = snd (mapreduce_word_count other text).
Proof.
  intros Hs Ho Hstop.
  rewrite !mapreduce_word_count_table by assumption. split.
  - rewrite reduce_function_concat. cbn [concat]. rewrite app_nil_r.
    now rewrite map_function_words.
  - unfold retained. now rewrite Hstop.
Qed.

Lemma worker_count_is_irrelevant_witness :
  snd (mapreduce_word_count (__init__ 3) (py "The fox, the dog; a fox!"))
  = snd (mapreduce_word_count (__init__ 7) (py "The fox, the dog; a fox!")).
Proof.
  refine (proj2 (worker_count_is_irrelevant (__init__ 3) (__init__ 7)
                   (py "The fox, the dog; a fox!") _ _ eq_refl));
    simpl; lia.
Defined.

(** X4. The count of a word is its number of occurrences: in the table of
    a run with at least one worker, a word that is longer than 2, is not a
    stop word and occurs among the words of the normalized text is mapped
    to the number of its occurrences there, and any other word is not a
    key. *)
Theorem word_count_is_occurrences
        (self : MapReduceWordAnalyzer) (text w : str) :
  1 <= num_workers self ->
  exists log table,
    mapreduce_word_count self text = (log, Ok table)
    /\ dict_get w table
       = let n := count_occ str_eq_dec (Py.split (preprocess_text text)) w in
         if (2 <? Py.len w) && negb (in_set w (stop_words self))
            && negb (Nat.eqb n 0)
         then Some (Z.of_nat n)
         else None.
Proof.
  intros Hn. pose proof (mapreduce_word_count_table self text Hn) as Htab.
  destruct (mapreduce_word_count self text) as [log [table|e]];
    [|discriminate].
  cbn [snd] in Htab. injection Htab as ->. do 2 eexists.
  split; [reflexivity|]. cbv zeta.
  rewrite dict_get_add_pairs, counts_of_tokens, count_occ_filter.
  unfold retained. cbn [dict_get].
  destruct ((2 <? Py.len w) && negb (in_set w (stop_words self)));
    [|reflexivity].
  destruct (count_occ str_eq_dec (Py.split (preprocess_text text)) w)
    as [|n] eqn:E; [reflexivity|].
  cbn [andb Nat.eqb negb]. rewrite <- sum_repeat_one. reflexivity.
Qed.

Lemma word_count_is_occurrences_witness :
  exists log table,
    mapreduce_word_count (__init__ 2) (py "Fox and fox and FOX.")
    = (log, Ok table)
    /\ dict_get (py "fox") table = Some 3.
Proof.
  destruct (word_count_is_occurrences (__init__ 2)
              (py "Fox and fox and FOX.") (py "fox") ltac:(simpl; lia))
    as [log [table [Hrun Hget]]].
  exists log, table. split; [exact Hrun|]. rewrite Hget. reflexivity.
Defined.

(** X5. Nothing is counted twice and nothing is lost: with at least one
    worker, the values of the returned table add up to the number of
    words of the normalized text that are longer than 2 and are not stop
    words. *)
Theorem total_count_is_retained_words
        (self : MapReduceWordAnalyzer) (text : str) :
  1 <= num_workers self ->
  exists log table,
    mapreduce_word_count self text = (log, Ok table)
    /\ fold_right Z.add 0 (map snd table)
       = Py.len (filter (fun token =>
                           (2 <? Py.len token)
                           && negb (in_set token (stop_words self)))
                        (Py.split (preprocess_text text))).
Proof.
  intros Hn. pose proof (mapreduce_word_count_table self text Hn) as Htab.
  destruct (mapreduce_word_count self text) as [log [table|e]];
    [|discriminate].
  cbn [snd] in Htab. injection Htab as ->. do 2 eexists.
  split; [reflexivity|].
  change (fold_right Z.add 0) with sum.
  rewrite add_pairs_total, sum_of_ones. reflexivity.
Qed.

Lemma total_count_is_retained_words_witness :
  exists log table,
    mapreduce_word_count (__init__ 2) (py "Fox and fox and dogs, it is.")
    = (log, Ok table)
    /\ fold_right Z.add 0 (map snd table) = 3.
Proof.
  destruct (total_count_is_retained_words (__init__ 2)
              (py "Fox and fox and dogs, it is.") ltac:(simpl; lia))
    as [log [table [Hrun Hsum]]].
  exists log, table. split; [exact Hrun|]. rewrite Hsum. reflexivity.
Defined.

(** X6. Although [preprocess_text] is not idempotent, the run is
    insensitive to it: on a text that has been normalized beforehand
    [mapreduce_word_count] logs and returns (or raises) exactly what it
    does on the raw text, whatever the worker count. *)
Theorem run_on_normalized_text
        (self : MapReduceWordAnalyzer) (text : str) :
  mapreduce_word_count self (preprocess_text text)
  = mapreduce_word_count self text.
Proof.
  apply mapreduce_word_count_by_words, preprocess_text_twice_words.
Qed.

Lemma split_from_chars (s : str) : forall cur w c,
  In w (Py.split_from cur s) -> In c w -> In c cur \/ In c s.
Proof.
  assert (Hflush : forall cur ws w,
             In w (Py.flush cur ws) -> w = rev cur \/ In w ws).
  { intros [|d cur] ws w H; simpl in H; [now right|].
    destruct H as [<-|H]; [now left|now right]. }
  induction s as [|d s IH]; intros cur w c Hw Hc; simpl in Hw.
  - apply Hflush in Hw. destruct Hw as [->|[]].
    left. now apply in_rev.
  - destruct (Py.isspace d).
    + apply Hflush in Hw. destruct Hw as [->|Hw].
      * left. now apply in_rev.
      * destruct (IH [] w c Hw Hc) as [[]|H]. right. now right.
    + destruct (IH (d :: cur) w c Hw Hc) as [[<-|H]|H].
      * right. now left.
      * now left.
      * right. now right.
Qed.

Lemma normalized_words_letters (text w : str) :
  In w (Py.split (preprocess_text text)) ->
  Forall (fun c => Py.is_az c = true) w.
Proof.
  intros Hw. apply Forall_forall. intros c Hc.
  pose proof (split_words (preprocess_text text)) as Hwords.
  rewrite Forall_forall in Hwords. destruct (Hwords w Hw) as [_ Hsf].
  unfold spacefree in Hsf. rewrite Forall_forall in Hsf.
  destruct (split_from_chars _ _ _ _ Hw Hc) as [[]|Hin].
  pose proof (preprocess_text_charset text) as Hcs.
  rewrite Forall_forall in Hcs.
  destruct (Hcs c Hin) as [H| ->]; [exact H|].
  specialize (Hsf _ Hc). discriminate.
Qed.

Lemma add_pairs_keys (pairs : list (str * Z)) : forall d,
  map fst (add_pairs d pairs)
  = map fst d ++ first_occurrences (map fst d) (map fst pairs).
Proof.
  unfold add_pairs.
  induction pairs as [|[w c] pairs IH]; intros d;
    cbn [fold_left map fst first_occurrences].
  - now rewrite app_nil_r.
  - rewrite IH, dict_add_keys.
    destruct (in_dec str_eq_dec w (map fst d)); [reflexivity|].
    now rewrite <- app_assoc.
Qed.

Lemma first_occurrences_in (l : list str) : forall seen w,
  In w (first_occurrences seen l) <-> In w l /\ ~ In w seen.
Proof.
  induction l as [|x l IH]; intros seen w; simpl; [tauto|].
  destruct (in_dec str_eq_dec x seen) as [Hx|Hx].
  - rewrite IH. split; [tauto|]. intros [[->|H] Hn]; tauto.
  - simpl. rewrite IH, in_app_iff. simpl.
    destruct (str_eq_dec x w) as [->|Hne]; [tauto|]. tauto.
Qed.

(** X7. The keys of the table are the retained words in order of first
    appearance: [reduce_function] lists the words of the mapped pairs,
    each once, in the order in which they first occur; and the table of a
    run with at least one worker lists, in the order of their first
    occurrence in the normalized text, exactly the words that are longer
    than 2 and are not stop words, each made of the letters [a-z] only. *)
Theorem table_keys_in_order_of_first_occurrence
        (self : MapReduceWordAnalyzer)
        (mapped_data : list (list (str * Z))) (text : str) :
  1 <= num_workers self ->
  map fst (reduce_function mapped_data)
  = first_occurrences [] (map fst (concat mapped_data))
  /\ exists log table,
       mapreduce_word_count self text = (log, Ok table)
       /\ map fst table
          = first_occurrences []
              (filter (fun token =>
                         (2 <? Py.len token)
                         && negb (in_set token (stop_words self)))
                      (Py.split (preprocess_text text)))
       /\ (forall w, In w (map fst table)
                     <-> In w (Py.split (preprocess_text text))
                         /\ 2 < Py.len w /\ ~ In w (stop_words self))
       /\ (forall w, In w (map fst table) ->
                     Forall (fun c => Py.is_az c = true) w).
Proof.
  intros Hn. split.
  { now rewrite reduce_function_concat, add_pairs_keys. }
  pose proof (mapreduce_word_count_table self text Hn) as Htab.
  destruct (mapreduce_word_count self text) as [log [table|e]];
    [|discriminate].
  cbn [snd] in Htab. injection Htab as ->. do 2 eexists.
  split; [reflexivity|].
  assert (Hkeys :
    map fst
      (add_pairs []
         (map (fun token => (token, 1))
            (filter (retained self) (Py.split (preprocess_text text)))))
    = first_occurrences []
        (filter (retained self) (Py.split (preprocess_text text)))).
  { rewrite add_pairs_keys, map_map. cbn [map fst app].
    now rewrite map_id. }
  assert (Hin : forall w,
    In w (first_occurrences []
            (filter (retained self) (Py.split (preprocess_text text))))
    <-> In w (Py.split (preprocess_text text))
        /\ 2 < Py.len w /\ ~ In w (stop_words self)).
  { intros w. rewrite first_occurrences_in, filter_In. unfold retained.
    split.
    - intros [[Hw Hr] _]. apply andb_prop in Hr. destruct Hr as [Hl Hs].
      apply Z.ltb_lt in Hl. repeat split; [assumption..|].
      intros Hin. apply in_set_spec in Hin. rewrite Hin in Hs.
      discriminate.
    - intros [Hw [Hl Hs]]. split; [split; [assumption|]|simpl; tauto].
      apply andb_true_intro. split; [now apply Z.ltb_lt|].
      destruct (in_set w (stop_words self)) eqn:E; [|reflexivity].
      apply in_set_spec in E. contradiction. }
  rewrite Hkeys. split; [reflexivity|]. split; [exact Hin|].
  intros w Hw. apply Hin in Hw.
  now apply (normalized_words_letters text w).
Qed.

Lemma table_keys_in_order_of_first_occurrence_witness :
  exists log table,
    mapreduce_word_count (__init__ 3) (py "Dogs see the fox; fox sees dogs")
    = (log, Ok table)
    /\ map fst table = [py "dogs"; py "see"; py "fox"; py "sees"].
Proof.
  destruct (table_keys_in_order_of_first_occurrence (__init__ 3) []
              (py "Dogs see the fox; fox sees dogs") ltac:(simpl; lia))
    as [_ [log [table [Hrun [Hkeys _]]]]].
  exists log, table. split; [exact Hrun|]. rewrite Hkeys. reflexivity.
Defined.

(** ** Further properties of the reducer and the map worker *)

Lemma counts_of_app (k : str) (p q : list (str * Z)) :
  counts_of k (p ++ q) = counts_of k p ++ counts_of k q.
Proof. unfold counts_of. now rewrite filter_app, map_app. Qed.

Lemma sum_app (a b : list Z) : sum (a ++ b) = sum a + sum b.
Proof.
  unfold sum. induction a as [|x a IH]; simpl; [reflexivity|].
  rewrite IH. lia.
Qed.

(** X8. Reducing is a merge: the table built from two batches of mapped
    data taken together holds, for every word, the sum of what the tables
    of the two batches hold for it, and the word is absent exactly when it
    is absent from both. *)
Theorem reduce_function_merges (a b : list (list (str * Z))) (w : str) :
  dict_get w (reduce_function (a ++ b))
  = merge_counts (dict_get w (reduce_function a))
                 (dict_get w (reduce_function b)).
Proof.
  rewrite !dict_get_reduce, concat_app, counts_of_app.
  destruct (counts_of w (concat a)) as [|x xs] eqn:Ea;
    destruct (counts_of w (concat b)) as [|y ys] eqn:Eb;
    cbn [app merge_counts]; try reflexivity.
  - now rewrite app_nil_r.
  - f_equal. change (x :: xs ++ y :: ys) with ((x :: xs) ++ y :: ys).
    apply sum_app.
Qed.

Lemma split_from_space (a : str) (sp : char) (b : str) : forall cur,
  Py.isspace sp = true ->
  Py.split_from cur (a ++ sp :: b)
  = Py.split_from cur a ++ Py.split_from [] b.
Proof.
  induction a as [|c a IH]; intros cur Hsp; simpl.
  - rewrite Hsp. now destruct cur.
  - destruct (Py.isspace c).
    + rewrite IH by assumption. now destruct cur.
    + now apply IH.
Qed.

(** X9. Mapping distributes over any cut at white space: on two texts put
    together with a white-space code point between them, [map_function]
    emits the pairs of the first text followed by the pairs of the
    second. *)
Theorem map_function_distributes
        (self : MapReduceWordAnalyzer) (a b : str) (sp : char) :
  Py.isspace sp = true ->
  map_function self (a ++ sp :: b)
  = map_function self a ++ map_function self b.
Proof.
  intros Hsp. rewrite !map_function_words. unfold Py.split.
  rewrite split_from_space by assumption.
  now rewrite filter_app, map_app.
Qed.

Lemma map_function_distributes_witness :
  map_function (__init__ 4) (py "quick fox" ++ 10%N :: py "lazy dog")
  = map_function (__init__ 4) (py "quick fox")
    ++ map_function (__init__ 4) (py "lazy dog").
Proof.
  apply map_function_distributes. reflexivity.
Defined.

(** ** Further properties of the chunker *)

Lemma slice_len {A} (l : list A) (a b : Z) :
  0 <= a <= b -> b <= Py.len l -> Py.len (Py.slice l a b) = b - a.
Proof.
  intros Hab Hb. unfold Py.slice, Py.clamp, Py.len in *.
  destruct (Z.ltb_spec a 0), (Z.ltb_spec b 0); try lia.
  rewrite !Z.min_l by lia.
  rewrite length_firstn, length_skipn. lia.
Qed.

(** X10. The sizes of the chunks: for [n >= 1] chunks of a text of [t]
    words, every chunk but the last holds [t // n] words and the last one
    holds the [t // n + t mod n] words that remain, so the last chunk can
    be up to [n - 1] words longer than the others. *)
Theorem chunk_sizes (text : str) (n : Z) :
  1 <= n ->
  exists chunks,
    split_text_into_chunks text n = Ok chunks
    /\ map (fun chunk => Py.len (Py.split chunk)) chunks
       = repeat (Py.len (Py.split text) / n) (Z.to_nat (n - 1))
         ++ [Py.len (Py.split text) / n + Py.len (Py.split text) mod n].
Proof.
  intros Hn. eexists. split; [now apply split_text_into_chunks_ranges|].
  set (words := Py.split text). set (cs := Py.len words / n).
  assert (Hlen : 0 <= Py.len words) by (unfold Py.len; lia).
  assert (Hcs : 0 <= cs) by (apply Z.div_pos; lia).
  assert (Hmul : n * cs <= Py.len words) by (apply Z.mul_div_le; lia).
  assert (Hmod : Py.len words = n * cs + Py.len words mod n)
    by (apply Z.div_mod; lia).
  rewrite <- (map_map Py.split (@Py.len str)).
  rewrite split_join_all.
  - rewrite map_app, !map_map. cbn [map]. f_equal.
    + rewrite <- (length_seq (Z.to_nat (n - 1)) 0) at 2.
      assert (Hseq : forall i, In i (seq 0 (Z.to_nat (n - 1))) ->
                               Z.of_nat i < n - 1).
      { intros i Hi. apply in_seq in Hi. lia. }
      induction (seq 0 (Z.to_nat (n - 1))) as [|i l IH]; [reflexivity|].
      cbn [map length repeat]. rewrite IH by (intros; apply Hseq; now right).
      f_equal. rewrite slice_len; [lia| |].
      * nia.
      * specialize (Hseq i (or_introl eq_refl)). nia.
    + f_equal. rewrite slice_len; nia.
  - apply Forall_app. split.
    + apply Forall_forall. intros r Hr.
      apply in_map_iff in Hr. destruct Hr as [i [<- _]].
      apply slice_words.
    + constructor; [apply slice_words|constructor].
Qed.

Lemma chunk_sizes_witness :
  exists chunks,
    split_text_into_chunks (py "a b c d e f g h i j k") 4 = Ok chunks
    /\ map (fun chunk => Py.len (Py.split chunk)) chunks = [2; 2; 2; 5].
Proof.
  destruct (chunk_sizes (py "a b c d e f g h i j k") 4 ltac:(lia))
    as [chunks [Hs Hsizes]].
  exists chunks. split; [exact Hs|]. rewrite Hsizes. reflexivity.
Defined.

(** ** Further properties of the top words *)

Lemma sorted_app (l1 l2 : list (str * Z)) :
  StronglySorted count_ge (l1 ++ l2) ->
  forall p q, In p l1 -> In q l2 -> snd q <= snd p.
Proof.
  induction l1 as [|x l1 IH]; intros Hs p q Hp Hq; [destruct Hp|].
  simpl in Hs. apply StronglySorted_inv in Hs. destruct Hs as [Hs Hx].
  destruct Hp as [<-|Hp]; [|now apply IH].
  rewrite Forall_forall in Hx. apply (Hx q). apply in_or_app. now right.
Qed.

(** X11. The words returned are the most frequent ones: for [k >= 0], no
    item of the table that [get_top_words] leaves out has a higher count
    than an item it returns. *)
Theorem top_words_are_the_largest (table : dict) (k : Z) (p q : str * Z) :
  0 <= k ->
  In p (get_top_words table k) ->
  In q table ->
  ~ In q (get_top_words table k) ->
  snd q <= snd p.
Proof.
  unfold get_top_words, most_common. intros Hk.
  destruct (Z.ltb_spec k 0) as [?|_]; [lia|]. intros Hp Hq Hout.
  apply (Permutation_in _ (sorted_desc_perm table)) in Hq.
  rewrite <- (firstn_skipn (Z.to_nat k) (sorted_desc table)) in Hq.
  apply in_app_or in Hq. destruct Hq as [Hq|Hq]; [contradiction|].
  apply (sorted_app (firstn (Z.to_nat k) (sorted_desc table))
                    (skipn (Z.to_nat k) (sorted_desc table)));
    [|assumption..].
  rewrite firstn_skipn. apply sorted_desc_sorted.
Qed.

Lemma top_words_are_the_largest_witness :
  snd (py "the", 1) <= snd (py "fox", 2).
Proof.
  apply (top_words_are_the_largest
           [(py "the", 1); (py "fox", 2); (py "dog", 3)] 2
           (py "fox", 2) (py "the", 1)).
  - lia.
  - simpl. right. now left.
  - now left.
  - simpl. intros [H|[H|[]]]; discriminate.
Defined.

Lemma insert_desc_filter (c : Z) (x : str * Z) (l : list (str * Z)) :
  filter (fun p => snd p =? c) (insert_desc x l)
  = filter (fun p => snd p =? c) (x :: l).
Proof.
  induction l as [|y l IH]; [reflexivity|].
  cbn [insert_desc].
  destruct (Z.ltb_spec (snd x) (snd y)) as [Hlt|_]; [|reflexivity].
  cbn [filter] in *. rewrite IH.
  destruct (Z.eqb_spec (snd y) c), (Z.eqb_spec (snd x) c);
    try reflexivity. lia.
Qed.

Lemma sorted_desc_filter (c : Z) (l : list (str * Z)) :
  filter (fun p => snd p =? c) (sorted_desc l)
  = filter (fun p => snd p =? c) l.
Proof.
  induction l as [|x l IH]; [reflexivity|].
  cbn [sorted_desc]. rewrite insert_desc_filter. cbn [filter].
  now rewrite IH.
Qed.

(** X12. Ties keep the order of the table: among the items of one and the
    same count, [get_top_words] returns them in the order in which the
    table holds them, leaving out only the later ones. *)
Theorem top_words_ties_in_table_order (table : dict) (k c : Z) :
  exists left_out,
    filter (fun p => snd p =? c) table
    = filter (fun p => snd p =? c) (get_top_words table k) ++ left_out.
Proof.
  unfold get_top_words, most_common.
  destruct (k <? 0); [now eexists|].
  exists (filter (fun p => snd p =? c)
                 (skipn (Z.to_nat k) (sorted_desc table))).
  now rewrite <- filter_app, firstn_skipn, sorted_desc_filter.
Qed.

(** ** The report and the command line program *)

Lemma enumerate1_items {A} (l : list A) :
  map snd (enumerate1 l) = l
  /\ map fst (enumerate1 l) = map Z.of_nat (seq 1 (length l)).
Proof.
  unfold enumerate1. rewrite <- seq_shift, map_map.
  generalize 0%nat as start.
  induction l as [|x l IH]; intros start; [now split|].
  cbn [length seq map combine fst snd].
  destruct (IH (S start)) as [IHs IHf]. now rewrite IHs, IHf.
Qed.

(** X13. The report of [save_results_to_file]: when the file opens, one
    report is written, with the number of words of the table, the sum of
    their counts, and one entry per word of the table, numbered from 1, in
    order of non-increasing count, ties in the order of the table; when
    the file does not open nothing is written; in neither case does the
    method raise. *)
Theorem report_lists_every_word_once (table : dict) :
  (exists entries,
     save_results_to_file true table
     = ([LogSaving;
         WriteReport (Py.len table)
                     (fold_right Z.add 0 (map (fun e => snd (snd e)) entries))
                     entries;
         LogSaved], inl tt)
     /\ map fst entries = map Z.of_nat (seq 1 (length table))
     /\ Permutation (map snd entries) table
     /\ StronglySorted count_ge (map snd entries)
     /\ forall c, filter (fun p => snd p =? c) (map snd entries)
                  = filter (fun p => snd p =? c) table)
  /\ save_results_to_file false table = ([LogSaving; LogSaveFailed], inl tt).
Proof.
  split; [|reflexivity].
  exists (enumerate1 (sorted_desc table)).
  destruct (enumerate1_items (sorted_desc table)) as [Hsnd Hfst].
  pose proof (sorted_desc_perm table) as Hperm.
  rewrite Hsnd, Hfst, <- (Permutation_length Hperm).
  repeat split.
  - unfold save_results_to_file. cbn. do 4 f_equal.
    rewrite <- (map_map snd snd), Hsnd.
    apply (sum_perm _ _ (Permutation_map snd Hperm)).
  - now apply Permutation_sym.
  - apply sorted_desc_sorted.
  - intros c. apply sorted_desc_filter.
Qed.

Lemma get_top_words_nonpositive (table : dict) (k : Z) :
  k <= 0 -> get_top_words table k = [].
Proof.
  intros Hk. unfold get_top_words, most_common.
  destruct (k <? 0); [reflexivity|].
  replace (Z.to_nat k) with 0%nat by lia. reflexivity.
Qed.

(** X14. A top-word count of 0 or less makes [main] fail late: when the
    text was fetched and the run found at least one word, the table is
    saved if asked, the chart is skipped with a warning, the summary is
    printed up to the average, and then the index into the empty list of
    top words raises [IndexError], which is logged as the failure of the
    program; the line of the most frequent word and the success line are
    not written. *)
Theorem nonpositive_top_words_fails_late
        (http_get : str -> option str) (file_opens chart_renders : bool)
        (args : Namespace) (link text : str)
        (log : list log_line) (item : str * Z) (table : dict) :
  sample_urls args = false ->
  url args = Some link ->
  link <> [] ->
  http_get link = Some text ->
  Py.strip text <> [] ->
  mapreduce_word_count (__init__ (workers args)) text
  = (log, Ok (item :: table)) ->
  top_words args <= 0 ->
  main http_get file_opens chart_renders args
  = ([LogStart; LogUrl link; LogWorkers (workers args);
      LogTopWords (top_words args); LogFetching; LogFetched (Py.len text)]
     ++ map Pipeline log
     ++ [Pipeline (LogTopHeader (top_words args))]
     ++ (if save_results args
         then fst (save_results_to_file file_opens (item :: table))
         else [])
     ++ (if no_visualization args then []
         else [LogVisualizing; WarnNothingToPlot])
     ++ [PrintSummaryHead; PrintUrl link;
         PrintTotal (fold_right Z.add 0 (map snd (item :: table)));
         PrintUnique (Py.len (item :: table));
         PrintAverage (fold_right Z.add 0 (map snd (item :: table)))
                      (Py.len (item :: table));
         LogFailure RaisedIndexError],
     inl tt).
Proof.
  intros Hsample Hurl Hlink Hget Hstrip Hrun Hk.
  unfold main. rewrite Hsample, Hurl.
  destruct link as [|c link]; [contradiction|].
  unfold main_try, fetch_text_from_url. rewrite Hget.
  cbn [io_bind say io_ret throw app].
  destruct (Py.strip text) as [|s0 st] eqn:Es; [contradiction|].
  unfold from_pipeline at 1. rewrite Hrun. cbn [io_bind fst snd].
  unfold get_top_words_logged. rewrite get_top_words_nonpositive by assumption.
  unfold true_divide.
  destruct (Z.eqb_spec (Py.len (item :: table)) 0) as [E|_];
    [unfold Py.len in E; simpl in E; lia|].
  unfold save_results_to_file, visualize_top_words.
  destruct (save_results args), (no_visualization args), file_opens;
    cbn; repeat first [rewrite <- app_assoc | progress cbn [app]]; reflexivity.
Qed.

Lemma get_top_words_nonempty (item : str * Z) (table : dict) (k : Z) :
  1 <= k ->
  exists most rest,
    get_top_words (item :: table) k = most :: rest
    /\ forall q, In q (item :: table) -> snd q <= snd most.
Proof.
  intros Hk. unfold get_top_words, most_common.
  destruct (Z.ltb_spec k 0) as [?|_]; [lia|].
  pose proof (sorted_desc_perm (item :: table)) as Hperm.
  pose proof (sorted_desc_sorted (item :: table)) as Hsorted.
  destruct (sorted_desc (item :: table)) as [|most rest] eqn:E.
  - apply Permutation_length in Hperm. discriminate.
  - replace (Z.to_nat k) with (S (Z.to_nat (k - 1))) by lia.
    exists most, (firstn (Z.to_nat (k - 1)) rest). split; [reflexivity|].
    intros q Hq. apply (Permutation_in _ Hperm) in Hq.
    apply StronglySorted_inv in Hsorted. destruct Hsorted as [_ Hall].
    destruct Hq as [<-|Hq]; [lia|].
    rewrite Forall_forall in Hall. exact (Hall q Hq).
Qed.

(** X15. A successful run of [main]: with a fetched text in which the
    run finds at least one word, a top-word count of at least 1, and a
    chart that is either switched off or drawn without an exception, the
    output ends with the summary and the success line; the word printed as
    the most frequent is an item of the table whose count no other item
    exceeds, and the average is taken over at least one word. *)
Theorem successful_run_prints_the_most_frequent_word
        (http_get : str -> option str) (file_opens chart_renders : bool)
        (args : Namespace) (link text : str)
        (log : list log_line) (item : str * Z) (table : dict) :
  sample_urls args = false ->
  url args = Some link ->
  link <> [] ->
  http_get link = Some text ->
  Py.strip text <> [] ->
  mapreduce_word_count (__init__ (workers args)) text
  = (log, Ok (item :: table)) ->
  1 <= top_words args ->
  no_visualization args = true \/ chart_renders = true ->
  exists before word count,
    main http_get file_opens chart_renders args
    = (before
       ++ [PrintSummaryHead; PrintUrl link;
           PrintTotal (fold_right Z.add 0 (map snd (item :: table)));
           PrintUnique (Py.len (item :: table));
           PrintAverage (fold_right Z.add 0 (map snd (item :: table)))
                        (Py.len (item :: table));
           PrintMostFrequent word count;
           LogSuccess],
       inl tt)
    /\ In (word, count) (item :: table)
    /\ (forall q, In q (item :: table) -> snd q <= count)
    /\ 1 <= Py.len (item :: table).
Proof.
  intros Hsample Hurl Hlink Hget Hstrip Hrun Hk Hvis.
  destruct (get_top_words_nonempty item table (top_words args) Hk)
    as [[word count] [rest [Htop Hmax]]].
  assert (Hin : In (word, count) (item :: table)).
  { assert (H : In (word, count) (get_top_words (item :: table)
                                                (top_words args)))
      by (rewrite Htop; now left).
    unfold get_top_words, most_common in H.
    destruct (top_words args <? 0); [destruct H|].
    apply firstn_incl in H.
    apply (Permutation_in _ (Permutation_sym
                               (sorted_desc_perm (item :: table))) H). }
  unfold main. rewrite Hsample, Hurl.
  destruct link as [|c link]; [contradiction|].
  unfold main_try, fetch_text_from_url. rewrite Hget.
  cbn [io_bind say io_ret throw app].
  destruct (Py.strip text) as [|s0 st] eqn:Es; [contradiction|].
  unfold from_pipeline at 1. rewrite Hrun. cbn [io_bind fst snd].
  unfold get_top_words_logged. rewrite Htop.
  unfold true_divide.
  destruct (Z.eqb_spec (Py.len (item :: table)) 0) as [E|_];
    [unfold Py.len in E; simpl in E; lia|].
  exists ([LogStart; LogUrl (c :: link); LogWorkers (workers args);
           LogTopWords (top_words args); LogFetching;
           LogFetched (Py.len text)]
          ++ map Pipeline log
          ++ map Pipeline
               (fst (get_top_words_logged (item :: table) (top_words args)))
          ++ (if save_results args
              then fst (save_results_to_file file_opens (item :: table))
              else [])
          ++ (if no_visualization args then []
              else [LogVisualizing;
                    ShowChart ((word, count) :: rest) (top_words args);
                    LogVisualized])).
  exists word, count. split; [|split; [exact Hin|split]].
  - unfold get_top_words_logged. rewrite Htop.
    unfold save_results_to_file, visualize_top_words.
    destruct (save_results args), file_opens;
      destruct Hvis as [-> | ->]; try destruct (no_visualization args);
      cbn; repeat first [rewrite <- app_assoc | progress cbn [app]]; reflexivity.
  - exact Hmax.
  - unfold Py.len. simpl. lia.
Qed.

(** Looks for a logged failure in the hypothesis [H] about an output. *)
Ltac find_failure H :=
  repeat match type of H with
    | _ \/ _ => destruct H as [H|H]
    | False => destruct H
    | In _ (_ ++ _) => apply in_app_or in H
    | In _ (map Pipeline _) =>
        apply in_map_iff in H; destruct H as [? [H _]]
    | In _ _ => progress cbn [In] in H
    | _ = LogFailure _ => first [discriminate H | fail 1]
    end.

(** X16. Every failure that [main] logs has its cause in the arguments
    or in the outside world: a [ZeroDivisionError] only with a worker
    count of 0 (the division of the summary never divides by zero), a
    [ValueError] only with a negative worker count, an [IndexError] only
    with a top-word count of 0 or less, and a library exception only when
    the download fails or the chart cannot be drawn. *)
Theorem every_logged_failure_has_a_cause
        (http_get : str -> option str) (file_opens chart_renders : bool)
        (args : Namespace) (e : raised) :
  In (LogFailure e) (fst (main http_get file_opens chart_renders args)) ->
  match e with
  | Raised ZeroDivisionError => workers args = 0
  | Raised ValueError => workers args < 0
  | RaisedIndexError => 1 <= workers args /\ top_words args <= 0
  | RaisedByLibrary =>
      (exists link, url args = Some link /\ http_get link = None)
      \/ (chart_renders = false /\ no_visualization args = false
          /\ 1 <= workers args /\ 1 <= top_words args)
  end.
Proof.
  intros H. unfold main in H.
  destruct (sample_urls args); [cbn in H; find_failure H|].
  destruct (url args) as [[|c link]|] eqn:Hurl;
    [cbn in H; find_failure H| |cbn in H; find_failure H].
  unfold main_try, fetch_text_from_url in H.
  destruct (http_get (c :: link)) as [text|] eqn:Hget.
  2: { cbn in H. find_failure H. injection H as <-. left. eauto. }
  cbn [io_bind say io_ret throw app] in H.
  destruct (Py.strip text) as [|s0 st]; [cbn in H; find_failure H|].
  unfold from_pipeline at 1 in H.
  destruct (Z.lt_trichotomy (workers args) 0) as [Hneg|[Hzero|Hpos]].
  - rewrite mapreduce_word_count_negative_workers in H by exact Hneg.
    cbn in H. find_failure H. injection H as <-. exact Hneg.
  - rewrite mapreduce_word_count_zero_workers in H by exact Hzero.
    cbn in H. find_failure H. injection H as <-. exact Hzero.
  - destruct (mapreduce_word_count_runs (__init__ (workers args)) text)
      as [chunks [_ Hrun]]; [simpl; lia|].
    rewrite Hrun in H. cbn [io_bind fst snd] in H.
    destruct (reduce_function _) as [|item table];
      [cbn in H; find_failure H|].
    unfold get_top_words_logged, true_divide in H.
    destruct (Z.eqb_spec (Py.len (item :: table)) 0) as [E|_];
      [unfold Py.len in E; simpl in E; lia|].
    unfold save_results_to_file, visualize_top_words in H.
    destruct (get_top_words (item :: table) (top_words args))
      as [|[word count] rest] eqn:Etop.
    + assert (Hk : top_words args <= 0).
      { destruct (Z_le_gt_dec (top_words args) 0) as [?|Hgt];
          [assumption|].
        destruct (get_top_words_nonempty item table (top_words args))
          as [m [r [E _]]]; [lia|congruence]. }
      destruct (save_results args), (no_visualization args), file_opens;
        cbn in H; find_failure H; injection H as <-; split; lia.
    + assert (Hk : 1 <= top_words args).
      { destruct (Z_le_gt_dec (top_words args) 0) as [Hle|?]; [|lia].
        rewrite get_top_words_nonpositive in Etop by assumption.
        discriminate. }
      destruct (save_results args), (no_visualization args) eqn:Hvis,
        file_opens, chart_renders eqn:Hchart;
        cbn in H; find_failure H; injection H as <-;
        right; repeat split; lia.
Qed.


Lemma nonpositive_top_words_fails_late_witness :
  exists out,
    main (fun _ => Some (py "The fox and the dog")) true true
         {| url := Some (py "http://example.org/fox.txt");
            sample_urls := false; top_words := 0; workers := 2;
            save_results := true; no_visualization := false |}
    = (out, inl tt)
    /\ In (LogFailure RaisedIndexError) out.
Proof.
  eexists. split.
  - eapply nonpositive_top_words_fails_late;
      [reflexivity|reflexivity|discriminate|reflexivity
      |intros H; vm_compute in H; discriminate H
      |reflexivity|simpl; lia].
  - cbn. tauto.
Defined.

Lemma successful_run_prints_the_most_frequent_word_witness :
  exists before word count,
    main (fun _ => Some (py "The fox and the dog and the fox")) false true
         {| url := Some (py "http://example.org/fox.txt");
            sample_urls := false; top_words := 3; workers := 2;
            save_results := true; no_visualization := false |}
    = (before
       ++ [PrintSummaryHead; PrintUrl (py "http://example.org/fox.txt");
           PrintTotal 3; PrintUnique 2; PrintAverage 3 2;
           PrintMostFrequent word count; LogSuccess],
       inl tt).
Proof.
  edestruct (successful_run_prints_the_most_frequent_word
               (fun _ => Some (py "The fox and the dog and the fox"))
               false true
               {| url := Some (py "http://example.org/fox.txt");
                  sample_urls := false; top_words := 3; workers := 2;
                  save_results := true; no_visualization := false |})
    as [before [word [count [Hmain _]]]];
    [reflexivity|reflexivity|discriminate|reflexivity
    |intros H; vm_compute in H; discriminate H
    |reflexivity|simpl; lia|now right|].
  exists before, word, count. rewrite Hmain. reflexivity.
Defined.

Lemma every_logged_failure_has_a_cause_witness :
  workers {| url := Some (py "http://example.org/fox.txt");
             sample_urls := false; top_words := 3; workers := 0;
             save_results := true; no_visualization := false |} = 0.
Proof.
  apply (every_logged_failure_has_a_cause
           (fun _ => Some (py "The fox and the dog")) true true
           {| url := Some (py "http://example.org/fox.txt");
              sample_urls := false; top_words := 3; workers := 0;
              save_results := true; no_visualization := false |}
           (Raised ZeroDivisionError)).
  cbn. tauto.
Defined.


(** ** Chunks and top words of a run *)

(** X18. Every chunk is in single-spaced form: whatever runs of spaces the
    text holds, a chunk returned by [split_text_into_chunks] is its own
    words joined by single spaces, so it has no space at either end and no
    two spaces in a row. *)
Theorem chunks_are_single_spaced (text : str) (n : Z) (chunks : list str) :
  split_text_into_chunks text n = Ok chunks ->
  Forall (fun chunk => Py.join [Py.SP] (Py.split chunk) = chunk) chunks.
Proof.
  unfold split_text_into_chunks.
  destruct (Py.floordiv _ n) as [cs|e]; [|discriminate].
  intros [= <-]. apply Forall_forall. intros chunk H.
  apply in_map_iff in H. destruct H as [i [<- _]].
  now rewrite split_join by apply slice_words.
Qed.

Lemma chunks_are_single_spaced_witness :
  Forall (fun chunk => Py.join [Py.SP] (Py.split chunk) = chunk)
         [py "rock"; py "roll over"].
Proof.
  apply (chunks_are_single_spaced (py "rock  roll   over") 2).
  reflexivity.
Defined.

Lemma first_occurrences_nodup (l : list str) : forall seen,
  NoDup (first_occurrences seen l).
Proof.
  induction l as [|x l IH]; intros seen; simpl; [constructor|].
  destruct (in_dec str_eq_dec x seen); [apply IH|].
  constructor; [|apply IH].
  rewrite first_occurrences_in. intros [_ Hx]. apply Hx.
  apply in_or_app. right. now left.
Qed.

Lemma first_occurrences_count (l : list str) :
  length (first_occurrences [] l) = length (nodup str_eq_dec l).
Proof.
  apply Permutation_length, NoDup_Permutation.
  - apply first_occurrences_nodup.
  - apply NoDup_nodup.
  - intros w. rewrite first_occurrences_in, nodup_In. simpl. tauto.
Qed.

(** X19. The number of top words of a run: with at least one worker and
    [k >= 0], [get_top_words] applied to the table of the run returns
    min(k, d) pairs, where d is the number of distinct words of the
    normalized text that are longer than 2 and are not stop words. *)
Theorem top_words_of_a_run
        (self : MapReduceWordAnalyzer) (text : str) (k : Z) :
  1 <= num_workers self ->
  0 <= k ->
  exists log table,
    mapreduce_word_count self text = (log, Ok table)
    /\ Py.len (get_top_words table k)
       = Z.min k
           (Py.len
              (nodup str_eq_dec
                 (filter (fun token =>
                            (2 <? Py.len token)
                            && negb (in_set token (stop_words self)))
                         (Py.split (preprocess_text text))))).
Proof.
  intros Hn Hk.
  pose proof (mapreduce_word_count_table self text Hn) as Htab.
  destruct (mapreduce_word_count self text) as [log [table|e]];
    [|discriminate].
  cbn [snd] in Htab. injection Htab as ->. do 2 eexists.
  split; [reflexivity|].
  change (fun token : str =>
            (2 <? Py.len token) && negb (in_set token (stop_words self)))
    with (retained self).
  set (words := filter (retained self) (Py.split (preprocess_text text))).
  set (table := add_pairs [] _).
  match goal with
  | |- context [nodup str_eq_dec ?l] => change l with words
  end.
  assert (Hlen : Py.len (nodup str_eq_dec words) = Py.len table).
  { unfold Py.len. f_equal.
    rewrite <- first_occurrences_count, <- (length_map fst table).
    unfold table. rewrite add_pairs_keys, map_map. cbn [map fst app].
    now rewrite map_id. }
  rewrite Hlen. unfold get_top_words, most_common.
  destruct (Z.ltb_spec k 0) as [?|_]; [lia|].
  unfold Py.len.
  rewrite length_firstn, <- (Permutation_length (sorted_desc_perm table)).
  lia.
Qed.

Lemma top_words_of_a_run_witness :
  exists log table,
    mapreduce_word_count (__init__ 2) (py "Fox, dog, fox; cat and fox")
    = (log, Ok table)
    /\ Py.len (get_top_words table 2) = 2.
Proof.
  destruct (top_words_of_a_run (__init__ 2)
              (py "Fox, dog, fox; cat and fox") 2
              ltac:(simpl; lia) ltac:(lia))
    as [log [table [Hrun Hlen]]].
  exists log, table. split; [exact Hrun|]. rewrite Hlen. reflexivity.
Defined.
